(** * keep-alive: the condition checks and the start/stop controller

    A shallow embedding of [keep-alive.py].  The platform (clock, battery
    query, network enumeration) is a [World] record read by the condition
    checks; what the program does to the outside (key presses, lines on
    standard output, sleeping) is a list of [Event]s; the application
    object is the record [KeepAliveApp]. *)

From Stdlib Require Import ZArith Bool Ascii String List Lia.
From stdpp Require Import base gmap strings pretty.
Import ListNotations.

Local Open Scope Z_scope.

(** ** Python string operations used by the program *)

Module Py.

(** [str.lower] / [str.upper] on one character (ASCII letters; every other
    byte is left as it is). *)
Definition is_upper (c : ascii) : bool :=
  let n := nat_of_ascii c in (65 <=? n)%nat && (n <=? 90)%nat.

Definition is_lower (c : ascii) : bool :=
  let n := nat_of_ascii c in (97 <=? n)%nat && (n <=? 122)%nat.

Definition lower_char (c : ascii) : ascii :=
  if is_upper c then ascii_of_nat (nat_of_ascii c + 32) else c.

Definition upper_char (c : ascii) : ascii :=
  if is_lower c then ascii_of_nat (nat_of_ascii c - 32) else c.

(** [s.lower()] *)
Fixpoint lower (s : string) : string :=
  match s with
  | EmptyString => EmptyString
  | String c s' => String (lower_char c) (lower s')
  end.

(** [s.title()]: a letter is upper-cased when it follows a character that
    is not a letter, and lower-cased otherwise. *)
Fixpoint title_from (prev_cased : bool) (s : string) : string :=
  match s with
  | EmptyString => EmptyString
  | String c s' =>
      let cased := is_upper c || is_lower c in
      String (if prev_cased then lower_char c else upper_char c)
             (title_from cased s')
  end.

Definition title (s : string) : string := title_from false s.

(** [s.startswith(p)] *)
Fixpoint startswith (s p : string) {struct p} : bool :=
  match p, s with
  | EmptyString, _ => true
  | String a p', String b s' => if Ascii.eqb a b then startswith s' p' else false
  | String _ _, EmptyString => false
  end.

(** [p in s] for strings: [p] occurs in [s] as a contiguous run. *)
Fixpoint contains (p s : string) : bool :=
  startswith s p ||
  match s with
  | EmptyString => false
  | String _ s' => contains p s'
  end.

(** [sep.join(l)] *)
Fixpoint join (sep : string) (l : list string) : string :=
  match l with
  | [] => EmptyString
  | [x] => x
  | x :: rest => x +:+ sep +:+ join sep rest
  end.

(** [bool(s)] for a string: the empty string is false. *)
Definition truthy (s : string) : bool :=
  match s with EmptyString => false | _ => true end.

(** [f"{n}"] for an integer. *)
Definition str_int (n : Z) : string := pretty n.

(** [f"{n:02d}"], the two-digit field of [strftime]. *)
Definition str_02d (n : Z) : string :=
  if (0 <=? n) && (n <? 10) then "0" +:+ pretty n else pretty n.

(** [any(f(x) for x in l)] *)
Definition any {A} (f : A -> bool) (l : list A) : bool := existsb f l.

End Py.

(** ** Exceptions *)

Inductive exn : Type :=
| Exception (msg : string).

Definition str_exn (e : exn) : string :=
  match e with Exception msg => msg end.

Inductive exc (A : Type) : Type :=
| Ok (a : A)
| Raise (e : exn).
Arguments Ok {A} a.
Arguments Raise {A} e.

#[global] Instance exc_ret : MRet exc := fun A a => Ok a.

#[global] Instance exc_bind : MBind exc := fun A B k m =>
  match m with
  | Ok a => k a
  | Raise e => Raise e
  end.

(** ** Configuration constants *)

Definition UPDATE_PERIOD : Z := 30.
Definition WORK_HOURS_START : Z := 8.
Definition WORK_HOURS_END : Z := 17.
Definition APP_NAME : string := "Keep Alive".
Definition KEEP_ALIVE_KEY : string := "scrolllock".

Definition SKIP_INTERFACES : list string :=
  ["lo"; "wifi"; "wlan"; "wireless"; "bluetooth"; "local area connection"].
Definition ETHERNET_PATTERNS : list string := ["ethernet"; "eth"; "en"].

Definition RGBA : Type := (Z * Z * Z * Z)%type.

Definition COLORS : gmap string RGBA :=
  <["active" := (34, 139, 34, 255)]>
  (<["paused" := (255, 140, 0, 255)]>
  (<["stopped" := (128, 128, 128, 255)]> ∅)).

(** ** The platform *)

(** [datetime.now()], the fields the program reads. *)
Record datetime := { hour : Z; minute : Z; second : Z }.

(** [strftime('%H:%M:%S')] *)
Definition strftime_HMS (t : datetime) : string :=
  Py.str_02d (hour t) +:+ ":" +:+ Py.str_02d (minute t) +:+ ":" +:+
  Py.str_02d (second t).

(** [psutil.sensors_battery()] entry. *)
Record sbattery := { percent : Z; power_plugged : bool }.

(** [psutil.net_if_stats()] entry. *)
Record snicstats := { isup : bool }.

(** [psutil.net_if_addrs()] entry. *)
Record snicaddr := { family : Z; address : string }.

(** One reading of the platform: [clock] is the time in seconds at which the
    reading is taken, [now] the local wall-clock time, the other fields the
    outcome of the psutil queries (a value, or the exception they raise). *)
Record World := {
  clock : Z;
  now : datetime;
  sensors_battery : exc (option sbattery);
  net_if_stats : exc (gmap string snicstats);
  net_if_addrs : exc (gmap string (list snicaddr))
}.

(** ** What the program does to the outside *)

Inductive Event : Type :=
| KeyPress (key : string)
| Print (line : string)
| Sleep (secs : Z).

(** A computation that writes to the outside: its value and the events it
    produced, oldest first. *)
Definition Out (A : Type) : Type := (A * list Event)%type.

Definition out_ret {A} (a : A) : Out A := (a, []).

Definition out_bind {A B} (m : Out A) (k : A -> Out B) : Out B :=
  let '(a, o1) := m in
  let '(b, o2) := k a in
  (b, o1 ++ o2).

Definition emit (e : Event) : Out unit := (tt, [e]).

Notation "'call' x <~ m 'in' k" := (out_bind m (fun x => k))
  (at level 10, x pattern, m at level 100, k at level 200, only parsing).

(** [print(line)] *)
Definition print (line : string) : Out unit := emit (Print line).

(** [simulate_key_press()]: [pyautogui.press(KEEP_ALIVE_KEY)] *)
Definition simulate_key_press : Out unit := emit (KeyPress KEEP_ALIVE_KEY).

(** ** class SystemConditions *)

Module SystemConditions.

Definition is_work_hours (w : World) : bool :=
  let current_hour := hour (now w) in
  (WORK_HOURS_START <=? current_hour) && (current_hour <? WORK_HOURS_END).

Definition is_on_ac_power (w : World) : bool :=
  match sensors_battery w with
  | Ok None => true
  | Ok (Some battery) => power_plugged battery
  | Raise _ => true
  end.

Definition _should_skip_interface (interface_name : string) : bool :=
  let name_lower := Py.lower interface_name in
  Py.any (fun pattern => Py.contains pattern name_lower) SKIP_INTERFACES.

Definition _is_ethernet_interface (interface_name : string) : bool :=
  let name_lower := Py.lower interface_name in
  Py.any (fun pattern =>
            Py.startswith name_lower pattern || Py.contains pattern name_lower)
         ETHERNET_PATTERNS.

(** The test of the [for addr in ...] loop of
    [_interface_has_valid_connection]. *)
Definition valid_ipv4 (addr : snicaddr) : bool :=
  (family addr =? 2) &&
  Py.truthy (address addr) &&
  negb (Py.startswith (address addr) "127.") &&
  negb (Py.startswith (address addr) "169.254.") &&
  negb (String.eqb (address addr) "0.0.0.0").

(** [net_stats[interface_name]] raises [KeyError] on a missing key (its
    message is the quoted key, written here as for a name without quotes);
    the loop over the addresses returns at the first valid one. *)
Definition _interface_has_valid_connection (interface_name : string)
    (net_stats : gmap string snicstats)
    (net_addrs : gmap string (list snicaddr)) : exc bool :=
  match net_stats !! interface_name with
  | None => Raise (Exception ("'" +:+ interface_name +:+ "'"))
  | Some if_stats =>
      if negb (isup if_stats) then Ok false
      else match net_addrs !! interface_name with
           | None => Ok false
           | Some addrs => Ok (existsb valid_ipv4 addrs)
           end
  end.

(** The [for interface_name in net_stats] loop, over the keys still to
    visit. *)
Fixpoint scan_interfaces (names : list string)
    (net_stats : gmap string snicstats)
    (net_addrs : gmap string (list snicaddr)) : exc bool :=
  match names with
  | [] => Ok false
  | interface_name :: rest =>
      if _should_skip_interface interface_name then
        scan_interfaces rest net_stats net_addrs
      else if _is_ethernet_interface interface_name then
        found ← _interface_has_valid_connection interface_name net_stats net_addrs;
        if found : bool then Ok true
        else scan_interfaces rest net_stats net_addrs
      else scan_interfaces rest net_stats net_addrs
  end.

(** The body of the [try] block.  The keys are visited in the order of the
    map; the loop only looks for one interface that passes, so the order
    does not change what it returns. *)
Definition wired_ethernet_query (w : World) : exc bool :=
  net_stats ← net_if_stats w;
  net_addrs ← net_if_addrs w;
  scan_interfaces (map_to_list net_stats).*1 net_stats net_addrs.

Definition has_wired_ethernet_connection (w : World) : Out bool :=
  match wired_ethernet_query w with
  | Ok found => out_ret found
  | Raise e =>
      call _ <~ print ("Error checking ethernet connection: " +:+ str_exn e) in
      out_ret false
  end.

End SystemConditions.

(** ** class KeepAliveApp *)

(** The tray icon object: the image is a disc of one colour, the menu always
    holds the same entries (their enabled flags and texts are closures
    evaluated when the menu is shown). *)
Record Icon := { icon_image : RGBA; icon_title : string }.

(** The fields of [self]; [thread] is the index of the last loop thread
    created, in the table of threads of the process. *)
Record KeepAliveApp := {
  running : bool;
  thread : option nat;
  icon : option Icon
}.

(** [__init__] *)
Definition init : KeepAliveApp :=
  {| running := false; thread := None; icon := None |}.

Definition set_running (b : bool) (self : KeepAliveApp) : KeepAliveApp :=
  {| running := b; thread := thread self; icon := icon self |}.

Definition set_thread (t : option nat) (self : KeepAliveApp) : KeepAliveApp :=
  {| running := running self; thread := t; icon := icon self |}.

Definition set_icon (i : option Icon) (self : KeepAliveApp) : KeepAliveApp :=
  {| running := running self; thread := thread self; icon := i |}.

(** [a and b and c]: the later operands are not evaluated once one is
    false. *)
Definition all_conditions_met (w : World) : Out bool :=
  if negb (SystemConditions.is_work_hours w) then out_ret false
  else if negb (SystemConditions.is_on_ac_power w) then out_ret false
  else SystemConditions.has_wired_ethernet_connection w.

Definition get_failed_conditions (w : World) : Out (list string) :=
  let reasons := [] in
  let reasons :=
    if negb (SystemConditions.is_work_hours w)
    then reasons ++ ["Outside Work Hours"] else reasons in
  let reasons :=
    if negb (SystemConditions.is_on_ac_power w)
    then reasons ++ ["On Battery"] else reasons in
  call wired <~ SystemConditions.has_wired_ethernet_connection w in
  let reasons :=
    if negb wired then reasons ++ ["No Ethernet"] else reasons in
  out_ret reasons.

(** The fill colour of the disc drawn by [create_icon_image]:
    [COLORS.get(status, COLORS['stopped'])]. *)
Definition create_icon_image (status : string) : RGBA :=
  default (default (0, 0, 0, 0) (COLORS !! "stopped")) (COLORS !! status).

Definition _get_icon_status (w : World) (self : KeepAliveApp)
  : Out (string * string) :=
  if negb (running self) then out_ret ("stopped", "Stopped")
  else
    call met <~ all_conditions_met w in
    if met : bool then out_ret ("active", "Running (Active)")
    else
      call failed_conditions <~ get_failed_conditions w in
      out_ret ("paused", "Paused (" +:+ Py.join ", " failed_conditions +:+ ")").

Definition update_icon (w : World) (self : KeepAliveApp) : Out KeepAliveApp :=
  match icon self with
  | None => out_ret self
  | Some _ =>
      call (status, title) <~ _get_icon_status w self in
      out_ret (set_icon (Some {| icon_image := create_icon_image status;
                                 icon_title := APP_NAME +:+ " - " +:+ title |})
                        self)
  end.

Definition _log_skip_reason (w : World) : Out unit :=
  let current_time := strftime_HMS (now w) in
  if negb (SystemConditions.is_work_hours w) then
    print ("Keep-alive: Outside work hours (" +:+ Py.str_int WORK_HOURS_START
           +:+ ":00-" +:+ Py.str_int WORK_HOURS_END +:+ ":00), skipping at "
           +:+ current_time)
  else if negb (SystemConditions.is_on_ac_power w) then
    print ("Keep-alive: Running on battery power, skipping at " +:+ current_time)
  else
    call wired <~ SystemConditions.has_wired_ethernet_connection w in
    if negb wired then
      print ("Keep-alive: No wired ethernet connection, skipping at "
             +:+ current_time)
    else out_ret tt.

(** The body of the [while self.running] loop of [keep_alive_loop], from the
    condition check to the [time.sleep]. *)
Definition loop_body (w : World) (self : KeepAliveApp) : Out KeepAliveApp :=
  call met <~ all_conditions_met w in
  call _ <~ (if met : bool then
       call _ <~ simulate_key_press in
       print ("Keep-alive: " +:+ Py.title KEEP_ALIVE_KEY +:+ " key pressed at "
              +:+ strftime_HMS (now w))
     else _log_skip_reason w) in
  call self' <~ update_icon w self in
  call _ <~ emit (Sleep UPDATE_PERIOD) in
  out_ret self'.

(** One pass of [keep_alive_loop]: the [while self.running] test, the
    second test of the flag, and the body.  The boolean tells whether the
    loop goes on (the thread is then asleep in [time.sleep]) or has
    returned. *)
Definition keep_alive_loop_pass (w : World) (self : KeepAliveApp)
  : Out (KeepAliveApp * bool) :=
  if running self then
    if negb (running self) then out_ret (self, false)
    else
      call self' <~ loop_body w self in
      out_ret (self', true)
  else out_ret (self, false).

(** *** The process: the application object and its loop threads *)

(** A loop thread is seen between two passes of its loop: asleep until
    [wake_at] (a thread just started is due at once), or returned. *)
Inductive ThreadState : Type :=
| Parked (wake_at : Z)
| Exited.

(** [ui_free_at] is the time from which the thread serving the menu can take
    the next call. *)
Record Process := {
  self : KeepAliveApp;
  threads : list ThreadState;
  ui_free_at : Z
}.

Definition boot : Process :=
  {| self := init; threads := []; ui_free_at := 0 |}.

Definition is_parked (t : ThreadState) : bool :=
  match t with Parked _ => true | Exited => false end.

(** The loop threads that have not returned. *)
Definition live_loops (p : Process) : nat :=
  length (List.filter is_parked (threads p)).

Definition start_keep_alive (w : World) (p : Process) : Out Process :=
  if negb (running (self p)) then
    let self1 := set_running true (self p) in
    let self2 := set_thread (Some (length (threads p))) self1 in
    let threads' := threads p ++ [Parked (clock w)] in
    call _ <~ print "Keep-alive started" in
    call self3 <~ update_icon w self2 in
    out_ret {| self := self3; threads := threads'; ui_free_at := clock w |}
  else out_ret p.

(** [self.thread.join(timeout=1)] at time [t]: a thread due before the
    second is over wakes while the caller is blocked, reads the flag just
    cleared and returns; otherwise (also when it is due at the very end of
    the second) the call gives up after one second and the thread stays
    asleep. *)
Definition join_timeout_1 (t : Z) (i : nat) (ths : list ThreadState)
  : list ThreadState * Z :=
  match ths !! i with
  | Some (Parked u) =>
      if u <? t + 1 then (<[i := Exited]> ths, Z.max t u)
      else (ths, t + 1)
  | _ => (ths, t)
  end.

Definition stop_keep_alive (w : World) (p : Process) : Out Process :=
  if running (self p) then
    let self1 := set_running false (self p) in
    let '(threads', free) :=
      match thread self1 with
      | Some i => join_timeout_1 (clock w) i (threads p)
      | None => (threads p, clock w)
      end in
    call _ <~ print "Keep-alive stopped" in
    call self2 <~ update_icon w self1 in
    out_ret {| self := self2; threads := threads'; ui_free_at := free |}
  else out_ret p.

(** Thread [i] runs one pass of its loop. *)
Definition thread_pass (w : World) (i : nat) (p : Process) : Out Process :=
  call (self', goes_on) <~ keep_alive_loop_pass w (self p) in
  let st := if goes_on : bool then Parked (clock w + UPDATE_PERIOD) else Exited in
  out_ret {| self := self'; threads := <[i := st]> (threads p);
             ui_free_at := ui_free_at p |}.

(** [run], up to the call of [self.icon.run()] that hands control to the
    tray's event loop. *)
Definition run (p : Process) : Out Process :=
  call _ <~ print (APP_NAME +:+ " System Tray App started") in
  call _ <~ print ("Work hours: " +:+ Py.str_int WORK_HOURS_START +:+ ":00 - "
                   +:+ Py.str_int WORK_HOURS_END +:+ ":00") in
  call _ <~ print ("Keep-alive will only be active during work hours, "
                   +:+ "when on AC power, and with wired ethernet") in
  call _ <~ print "Look for the icon in your system tray" in
  call _ <~ print "Right-click the icon to start/stop keep-alive functionality" in
  let tray := {| icon_image := create_icon_image "stopped";
                 icon_title := APP_NAME +:+ " - Stopped" |} in
  out_ret {| self := set_icon (Some tray) (self p); threads := threads p;
             ui_free_at := ui_free_at p |}.

(** What can happen to the process: a menu call, or a loop thread waking.
    Each carries the reading of the platform at that moment. *)
Inductive Action : Type :=
| CallStart (w : World)
| CallStop (w : World)
| LoopPass (i : nat) (w : World).

(** No loop thread is due before time [t]. *)
Definition none_due_before (t : Z) (ths : list ThreadState) : bool :=
  forallb (fun st => match st with Parked u => t <=? u | Exited => true end) ths.

(** An action is taken only in time order: a menu call once the menu thread
    is free and the wake-ups due earlier have been served, a loop pass at the
    wake-up time of its thread, the earliest due first. *)
Definition exec (a : Action) (p : Process) : option (Out Process) :=
  match a with
  | CallStart w =>
      if (ui_free_at p <=? clock w) && none_due_before (clock w) (threads p)
      then Some (start_keep_alive w p) else None
  | CallStop w =>
      if (ui_free_at p <=? clock w) && none_due_before (clock w) (threads p)
      then Some (stop_keep_alive w p) else None
  | LoopPass i w =>
      match threads p !! i with
      | Some (Parked u) =>
          if (clock w =? u) && none_due_before u (threads p)
          then Some (thread_pass w i p) else None
      | _ => None
      end
  end.

Fixpoint play (sched : list Action) (p : Process) : option (Out Process) :=
  match sched with
  | [] => Some (out_ret p)
  | a :: rest =>
      match exec a p with
      | None => None
      | Some (p1, o1) =>
          match play rest p1 with
          | None => None
          | Some (p2, o2) => Some (p2, o1 ++ o2)
          end
      end
  end.

(** The number of key presses in a trace. *)
Definition is_key_press (e : Event) : bool :=
  match e with KeyPress _ => true | _ => false end.

Definition key_presses (o : list Event) : nat :=
  length (List.filter is_key_press o).

(** The lines printed in a trace. *)
Definition printed (o : list Event) : list string :=
  omap (fun e => match e with Print l => Some l | _ => None end) o.

(** ** class StatusProvider *)

Module StatusProvider.

(** [{WORK_HOURS_START:02d}] is the two-digit form, [{WORK_HOURS_START}] the
    plain one; the hour is read again after the test of the window. *)
Definition get_work_hours_status (w : World) : string :=
  if SystemConditions.is_work_hours w then
    "In work hours (" +:+ Py.str_02d WORK_HOURS_START +:+ ":00 - "
    +:+ Py.str_02d WORK_HOURS_END +:+ ":00)"
  else
    let current_hour := hour (now w) in
    let next_start :=
      if current_hour <? WORK_HOURS_START
      then "Work hours start at " +:+ Py.str_int WORK_HOURS_START +:+ ":00"
      else "Work hours resume tomorrow at " +:+ Py.str_int WORK_HOURS_START +:+ ":00" in
    "Outside work hours. " +:+ next_start.


End StatusProvider.

(** *** The menu and quitting *)





(** [quit_app]; the boolean tells whether [self.icon.stop()] was called. *)
Definition quit_app (w : World) (p : Process) : Out (Process * bool) :=
  call p1 <~ stop_keep_alive w p in
  out_ret (p1, match icon (self p1) with Some _ => true | None => false end).


(** ** Readings of the platform used as examples *)

Definition with_net_if_stats (q : exc (gmap string snicstats)) (w : World) : World :=
  {| clock := clock w; now := now w; sensors_battery := sensors_battery w;
     net_if_stats := q; net_if_addrs := net_if_addrs w |}.

Definition with_clock (t : Z) (w : World) : World :=
  {| clock := t; now := now w; sensors_battery := sensors_battery w;
     net_if_stats := net_if_stats w; net_if_addrs := net_if_addrs w |}.

Definition with_hour (h : Z) (w : World) : World :=
  {| clock := clock w;
     now := {| hour := h; minute := minute (now w); second := second (now w) |};
     sensors_battery := sensors_battery w;
     net_if_stats := net_if_stats w; net_if_addrs := net_if_addrs w |}.

Definition with_sensors_battery (q : exc (option sbattery)) (w : World) : World :=
  {| clock := clock w; now := now w; sensors_battery := q;
     net_if_stats := net_if_stats w; net_if_addrs := net_if_addrs w |}.

(** A desktop at 09:05:00: no battery, [eth0] up with 192.168.1.5, [wlan0]
    up with 10.0.0.7. *)
Definition office : World :=
  {| clock := 0;
     now := {| hour := 9; minute := 5; second := 0 |};
     sensors_battery := Ok None;
     net_if_stats :=
       Ok (<["eth0" := {| isup := true |}]> (<["wlan0" := {| isup := true |}]> ∅));
     net_if_addrs :=
       Ok (<["eth0" := [{| family := 2; address := "192.168.1.5" |}]]>
          (<["wlan0" := [{| family := 2; address := "10.0.0.7" |}]]> ∅)) |}.

(** The same machine with only [wlan0]. *)
Definition wifi_only : World :=
  with_net_if_stats (Ok (<["wlan0" := {| isup := true |}]> ∅)) office.

(** The same machine when the enumeration of the interfaces fails. *)
Definition net_down : World :=
  with_net_if_stats (Raise (Exception "enumeration failed")) office.

(** A laptop on battery at 40%. *)
Definition on_battery : World :=
  with_sensors_battery (Ok (Some {| percent := 40; power_plugged := false |})) office.

(** The laptop on battery when the enumeration of the interfaces fails. *)
Definition unplugged_offline : World :=
  with_net_if_stats (Raise (Exception "enumeration failed")) on_battery.

(** The desktop when the battery query fails. *)
Definition no_sensors : World :=
  with_sensors_battery (Raise (Exception "sensors unavailable")) office.

(** ** Specification predicates *)

(** An interface of the enumeration, as the wired-ethernet rule describes
    it: no skip pattern in its lower-cased name, an ethernet pattern at its
    start or inside it, operational state up, and an IPv4 address that is
    not empty, not in 127.x, not in 169.254.x and not 0.0.0.0. *)
Definition wired_ethernet_interface (net_stats : gmap string snicstats)
    (net_addrs : gmap string (list snicaddr)) (name : string) : Prop :=
  (forall p, In p SKIP_INTERFACES -> Py.contains p (Py.lower name) = false) /\
  (exists p, In p ETHERNET_PATTERNS /\
     (Py.startswith (Py.lower name) p = true \/
      Py.contains p (Py.lower name) = true)) /\
  (exists st, net_stats !! name = Some st /\ isup st = true) /\
  (exists addrs a, net_addrs !! name = Some addrs /\ In a addrs /\
     family a = 2 /\ address a <> EmptyString /\
     Py.startswith (address a) "127." = false /\
     Py.startswith (address a) "169.254." = false /\
     address a <> "0.0.0.0").

(** The three condition values of one reading of the platform. *)
Definition work_hours_ok (w : World) : bool := SystemConditions.is_work_hours w.
Definition power_ok (w : World) : bool := SystemConditions.is_on_ac_power w.
Definition ethernet_ok (w : World) : bool :=
  fst (SystemConditions.has_wired_ethernet_connection w).

(** The names of the conditions that are false, in the order work hours,
    power, ethernet. *)
Definition failed_names (work power ethernet : bool) : list string :=
  map snd (List.filter (fun c => negb (fst c))
             [(work, "Outside Work Hours"); (power, "On Battery");
              (ethernet, "No Ethernet")]).

(** The lines of a trace that start with the prefix of the log. *)
Definition keep_alive_lines (o : list Event) : list string :=
  List.filter (fun l => Py.startswith l "Keep-alive:") (printed o).

(** The line of a tick that presses the key, and of a tick that skips,
    naming the first condition that is false. *)
Definition press_line (w : World) : string :=
  "Keep-alive: Scrolllock key pressed at " +:+ strftime_HMS (now w).

Definition skip_line (w : World) : string :=
  if negb (work_hours_ok w) then
    "Keep-alive: Outside work hours (8:00-17:00), skipping at "
    +:+ strftime_HMS (now w)
  else if negb (power_ok w) then
    "Keep-alive: Running on battery power, skipping at " +:+ strftime_HMS (now w)
  else
    "Keep-alive: No wired ethernet connection, skipping at "
    +:+ strftime_HMS (now w).

(** The line printed when the enumeration of the interfaces fails. *)
Definition error_line (line : string) : Prop :=
  exists e, line = "Error checking ethernet connection: " +:+ str_exn e.

(** A trace with no key press, in which only error lines are printed. *)
Definition quiet (o : list Event) : Prop :=
  key_presses o = 0%nat /\ keep_alive_lines o = [] /\
  forall line, In line (printed o) -> error_line line.

(** A string of the form dd:dd:dd. *)
Definition is_digit (c : ascii) : bool :=
  let n := nat_of_ascii c in (48 <=? n)%nat && (n <=? 57)%nat.

Definition is_HMS (s : string) : bool :=
  match s with
  | String h1 (String h2 (String c1 (String m1 (String m2
      (String c2 (String s1 (String s2 EmptyString))))))) =>
      is_digit h1 && is_digit h2 && Ascii.eqb c1 ":" &&
      is_digit m1 && is_digit m2 && Ascii.eqb c2 ":" &&
      is_digit s1 && is_digit s2
  | _ => false
  end.

(** A local time as [datetime.now()] gives it. *)
Definition valid_datetime (t : datetime) : Prop :=
  0 <= hour t < 24 /\ 0 <= minute t < 60 /\ 0 <= second t < 60.

(** A line as the log format describes it: the prefix, then a timestamp
    at its end. *)
Definition log_format (line : string) : Prop :=
  exists body ts, line = "Keep-alive:" +:+ body +:+ ts /\ is_HMS ts = true.

(** Every line printed in a trace has the log format. *)
Definition all_log_format (o : list Event) : Prop :=
  forall line, In line (printed o) -> log_format line.

(** A pass of the loop taken on a reading where the three conditions hold. *)
Definition pass_meets (a : Action) : bool :=
  match a with
  | LoopPass _ w => work_hours_ok w && power_ok w && ethernet_ok w
  | _ => false
  end.

Definition is_call_stop (a : Action) : bool :=
  match a with CallStop _ => true | _ => false end.

(** While the flag is set, the thread recorded in [self.thread] has not
    returned. *)
Definition loop_alive (p : Process) : Prop :=
  running (self p) = true ->
  exists i u, thread (self p) = Some i /\ threads p !! i = Some (Parked u).

(** One live loop while the flag is set, none otherwise. *)
Definition one_loop_when_running (p : Process) : Prop :=
  live_loops p = if running (self p) then 1%nat else 0%nat.

(** The skip line that goes with a name of [get_failed_conditions]. *)
Definition reason_line (name : string) (w : World) : string :=
  if String.eqb name "Outside Work Hours" then
    "Keep-alive: Outside work hours (8:00-17:00), skipping at "
    +:+ strftime_HMS (now w)
  else if String.eqb name "On Battery" then
    "Keep-alive: Running on battery power, skipping at " +:+ strftime_HMS (now w)
  else
    "Keep-alive: No wired ethernet connection, skipping at "
    +:+ strftime_HMS (now w).

(** * Properties *)

(** ** Strings *)

Lemma startswith_app s p : Py.startswith (p +:+ s) p = true.
Proof.
  induction p as [|a p IH]; [reflexivity|].
  change (String a p +:+ s) with (String a (p +:+ s)).
  simpl. rewrite Ascii.eqb_refl. exact IH.
Qed.

Lemma startswith_spec s p :
  Py.startswith s p = true <-> exists t, s = p +:+ t.
Proof.
  split.
  - revert s. induction p as [|a p IH]; intros s H.
    + exists s. reflexivity.
    + destruct s as [|b s]; simpl in H; [discriminate|].
      destruct (Ascii.eqb a b) eqn:E; [|discriminate].
      apply Ascii.eqb_eq in E. subst b.
      destruct (IH _ H) as [t ->]. exists t. reflexivity.
  - intros [t ->]. apply startswith_app.
Qed.

Lemma contains_unfold p s :
  Py.contains p s =
  Py.startswith s p ||
  match s with EmptyString => false | String _ s' => Py.contains p s' end.
Proof. destruct s; reflexivity. Qed.

Lemma contains_spec p s :
  Py.contains p s = true <-> exists a b, s = a +:+ p +:+ b.
Proof.
  split.
  - induction s as [|c s IH]; rewrite contains_unfold; intros H;
      apply orb_true_iff in H; destruct H as [H|H].
    + apply startswith_spec in H. destruct H as [t ->]. exists EmptyString, t. reflexivity.
    + discriminate.
    + apply startswith_spec in H. destruct H as [t ->]. exists EmptyString, t. reflexivity.
    + destruct (IH H) as (a & b & ->). exists (String c a), b. reflexivity.
  - intros (a & b & ->). induction a as [|c a IH].
    + change (EmptyString +:+ p +:+ b) with (p +:+ b).
      rewrite contains_unfold, startswith_app. reflexivity.
    + change (String c a +:+ p +:+ b) with (String c (a +:+ p +:+ b)).
      rewrite contains_unfold, IH. apply orb_true_r.
Qed.

Lemma startswith_contains s p :
  Py.startswith s p = true -> Py.contains p s = true.
Proof. intros H. rewrite contains_unfold, H. reflexivity. Qed.

Lemma truthy_spec s : Py.truthy s = true <-> s <> EmptyString.
Proof. destruct s; simpl; split; congruence. Qed.

(** ** Work hours *)

(** C4: at every local hour [h], [is_work_hours] is true exactly when
    [8 <= h < 17]; it is true at 8 and false at 17. *)
Theorem is_work_hours_window :
  (forall w, SystemConditions.is_work_hours w = true <-> 8 <= hour (now w) < 17) /\
  (forall w, hour (now w) = 8 -> SystemConditions.is_work_hours w = true) /\
  (forall w, hour (now w) = 17 -> SystemConditions.is_work_hours w = false).
Proof.
  unfold SystemConditions.is_work_hours, WORK_HOURS_START, WORK_HOURS_END.
  split; [|split]; intros w.
  - rewrite andb_true_iff, Z.leb_le, Z.ltb_lt. reflexivity.
  - intros ->. reflexivity.
  - intros ->. reflexivity.
Qed.

Lemma is_work_hours_window_witness :
  SystemConditions.is_work_hours office = true /\
  SystemConditions.is_work_hours (with_hour 8 office) = true /\
  SystemConditions.is_work_hours (with_hour 17 office) = false.
Proof.
  split; [|split].
  - apply (proj1 is_work_hours_window office). simpl. lia.
  - apply (proj1 (proj2 is_work_hours_window) (with_hour 8 office)). reflexivity.
  - apply (proj2 (proj2 is_work_hours_window) (with_hour 17 office)). reflexivity.
Defined.

(** ** AC power *)

(** C5: [is_on_ac_power] is true when no battery is reported, true when the
    battery query raises, and the plugged-in flag when a battery is
    reported. *)
Theorem is_on_ac_power_fail_open (w : World) :
  (sensors_battery w = Ok None -> SystemConditions.is_on_ac_power w = true) /\
  (forall e, sensors_battery w = Raise e ->
             SystemConditions.is_on_ac_power w = true) /\
  (forall battery, sensors_battery w = Ok (Some battery) ->
             SystemConditions.is_on_ac_power w = power_plugged battery).
Proof.
  unfold SystemConditions.is_on_ac_power.
  split; [|split].
  - intros ->. reflexivity.
  - intros e ->. reflexivity.
  - intros battery ->. reflexivity.
Qed.

Lemma is_on_ac_power_fail_open_witness :
  SystemConditions.is_on_ac_power office = true /\
  SystemConditions.is_on_ac_power no_sensors = true /\
  SystemConditions.is_on_ac_power on_battery = false.
Proof.
  split; [|split].
  - apply (proj1 (is_on_ac_power_fail_open office)). reflexivity.
  - apply (proj1 (proj2 (is_on_ac_power_fail_open no_sensors))
             (Exception "sensors unavailable")). reflexivity.
  - apply (proj2 (proj2 (is_on_ac_power_fail_open on_battery))
             {| percent := 40; power_plugged := false |}). reflexivity.
Defined.

(** ** Wired ethernet *)

Section Wired.

Import SystemConditions.

Lemma valid_ipv4_spec a :
  valid_ipv4 a = true <->
  family a = 2 /\ address a <> EmptyString /\
  Py.startswith (address a) "127." = false /\
  Py.startswith (address a) "169.254." = false /\
  address a <> "0.0.0.0".
Proof.
  unfold valid_ipv4.
  rewrite !andb_true_iff, !negb_true_iff, Z.eqb_eq, truthy_spec, String.eqb_neq.
  tauto.
Qed.

Lemma should_skip_false name :
  _should_skip_interface name = false <->
  forall p, In p SKIP_INTERFACES -> Py.contains p (Py.lower name) = false.
Proof.
  unfold _should_skip_interface, Py.any. split.
  - intros H p Hp. destruct (Py.contains p (Py.lower name)) eqn:E; [|reflexivity].
    assert (existsb (fun q => Py.contains q (Py.lower name)) SKIP_INTERFACES = true)
      as H' by (apply existsb_exists; eauto).
    congruence.
  - intros H. apply not_true_is_false. intros H'.
    apply existsb_exists in H'. destruct H' as (p & Hp & E).
    rewrite (H p Hp) in E. discriminate.
Qed.

Lemma should_skip_true name :
  _should_skip_interface name = true <->
  exists p, In p SKIP_INTERFACES /\ Py.contains p (Py.lower name) = true.
Proof. unfold _should_skip_interface, Py.any. apply existsb_exists. Qed.

Lemma is_ethernet_spec name :
  _is_ethernet_interface name = true <->
  exists p, In p ETHERNET_PATTERNS /\
    (Py.startswith (Py.lower name) p = true \/
     Py.contains p (Py.lower name) = true).
Proof.
  unfold _is_ethernet_interface, Py.any. rewrite existsb_exists.
  split; intros (p & Hp & H); exists p; split; auto.
  - apply orb_true_iff in H. exact H.
  - apply orb_true_iff. exact H.
Qed.

(** On a key of [net_stats] the check raises nothing, and is true exactly
    for an interface that is up and has a valid address. *)
Lemma valid_connection_spec name net_stats net_addrs st :
  net_stats !! name = Some st ->
  exists b, _interface_has_valid_connection name net_stats net_addrs = Ok b /\
    (b = true <->
     isup st = true /\
     exists addrs a, net_addrs !! name = Some addrs /\ In a addrs /\
                     valid_ipv4 a = true).
Proof.
  intros Hst. unfold _interface_has_valid_connection. rewrite Hst.
  destruct (isup st) eqn:Hup; simpl.
  - destruct (net_addrs !! name) as [addrs|] eqn:Hal.
    + exists (existsb valid_ipv4 addrs). split; [reflexivity|].
      rewrite existsb_exists. split.
      * intros (a & Ha & Hv). split; [reflexivity|]. eauto.
      * intros (_ & addrs' & a & Heq & Ha & Hv).
        injection Heq as <-. eauto.
    + exists false. split; [reflexivity|]. split; [discriminate|].
      intros (_ & addrs' & a & Heq & _). discriminate.
  - exists false. split; [reflexivity|]. split; [discriminate|].
    intros [? _]. discriminate.
Qed.

Lemma wired_ethernet_interface_unfold net_stats net_addrs name :
  wired_ethernet_interface net_stats net_addrs name <->
  _should_skip_interface name = false /\
  _is_ethernet_interface name = true /\
  exists st, net_stats !! name = Some st /\ isup st = true /\
    exists addrs a, net_addrs !! name = Some addrs /\ In a addrs /\
                    valid_ipv4 a = true.
Proof.
  unfold wired_ethernet_interface.
  rewrite should_skip_false, is_ethernet_spec.
  split.
  - intros (Hs & He & (st & Hst & Hup) & addrs & a & Hal & Ha & Hv).
    repeat split; auto. exists st. repeat split; auto.
    exists addrs, a. rewrite valid_ipv4_spec. auto.
  - intros (Hs & He & st & Hst & Hup & addrs & a & Hal & Ha & Hv).
    repeat split; auto; [eauto|].
    exists addrs, a. rewrite <- valid_ipv4_spec. auto.
Qed.

(** The loop over keys of [net_stats] ends without an exception, and finds
    an interface exactly when one of the keys is a wired ethernet
    interface. *)
Lemma scan_interfaces_spec net_stats net_addrs names :
  (forall n, In n names -> is_Some (net_stats !! n)) ->
  exists b, scan_interfaces names net_stats net_addrs = Ok b /\
    (b = true <->
     exists n, In n names /\ wired_ethernet_interface net_stats net_addrs n).
Proof.
  induction names as [|n rest IH]; intros Hkeys.
  - exists false. split; [reflexivity|]. split; [discriminate|].
    intros (n & [] & _).
  - destruct IH as (b & Hb & Hiff).
    { intros m Hm. apply Hkeys. right. exact Hm. }
    assert (Hother : forall c : bool,
      (c = true <->
       exists m, In m rest /\ wired_ethernet_interface net_stats net_addrs m) ->
      ~ wired_ethernet_interface net_stats net_addrs n ->
      (c = true <-> exists m, In m (n :: rest) /\
                     wired_ethernet_interface net_stats net_addrs m)).
    { intros c Hc Hn. rewrite Hc. split.
      - intros (m & Hm & Hw). exists m. split; [right|]; auto.
      - intros (m & [<-|Hm] & Hw); [contradiction|eauto]. }
    simpl. destruct (_should_skip_interface n) eqn:Hskip.
    { exists b. split; [exact Hb|]. apply Hother; [exact Hiff|].
      rewrite wired_ethernet_interface_unfold. intros [? _]. congruence. }
    destruct (_is_ethernet_interface n) eqn:Heth.
    2:{ exists b. split; [exact Hb|]. apply Hother; [exact Hiff|].
        rewrite wired_ethernet_interface_unfold. intros (_ & ? & _). congruence. }
    destruct (Hkeys n (or_introl eq_refl)) as [st Hst].
    destruct (valid_connection_spec n net_stats net_addrs st Hst)
      as (found & Hfound & Hfiff).
    rewrite Hfound. simpl. destruct found.
    + exists true. split; [reflexivity|]. split; [|reflexivity].
      intros _. exists n. split; [left; reflexivity|].
      rewrite wired_ethernet_interface_unfold.
      destruct Hfiff as [Hf _]. destruct (Hf eq_refl) as (Hup & Hrest).
      repeat split; auto. exists st. auto.
    + exists b. split; [exact Hb|]. apply Hother; [exact Hiff|].
      rewrite wired_ethernet_interface_unfold.
      intros (_ & _ & st' & Hst' & Hup & Hrest).
      assert (st' = st) as -> by congruence.
      destruct Hfiff as [_ Hf]. specialize (Hf (conj Hup Hrest)). discriminate.
Qed.

(** The order in which the keys are visited does not matter. *)
Lemma scan_interfaces_order net_stats net_addrs names1 names2 :
  (forall n, In n names1 -> is_Some (net_stats !! n)) ->
  (forall n, In n names1 <-> In n names2) ->
  scan_interfaces names1 net_stats net_addrs =
  scan_interfaces names2 net_stats net_addrs.
Proof.
  intros Hkeys Hsame.
  destruct (scan_interfaces_spec net_stats net_addrs names1 Hkeys) as (b1 & -> & H1).
  destruct (scan_interfaces_spec net_stats net_addrs names2) as (b2 & -> & H2).
  { intros n Hn. apply Hkeys, Hsame, Hn. }
  f_equal. apply eq_true_iff_eq. rewrite H1, H2.
  split; intros (n & Hn & Hw); exists n; split; auto; apply Hsame; exact Hn.
Qed.

(** When both queries succeed, the result is true exactly when the
    enumeration holds a wired ethernet interface, and nothing is printed. *)
Lemma has_wired_ok w net_stats net_addrs :
  net_if_stats w = Ok net_stats ->
  net_if_addrs w = Ok net_addrs ->
  exists b, has_wired_ethernet_connection w = (b, []) /\
    (b = true <->
     exists name, wired_ethernet_interface net_stats net_addrs name).
Proof.
  intros Hs Ha.
  destruct (scan_interfaces_spec net_stats net_addrs (map_to_list net_stats).*1)
    as (b & Hb & Hiff).
  { intros n Hn. apply list_elem_of_In, list_elem_of_fmap in Hn.
    destruct Hn as ([n' st] & -> & Hin).
    apply elem_of_map_to_list in Hin. exists st. exact Hin. }
  exists b. split.
  - unfold has_wired_ethernet_connection, wired_ethernet_query.
    rewrite Hs, Ha. simpl. rewrite Hb. reflexivity.
  - rewrite Hiff. split.
    + intros (n & _ & Hw). eauto.
    + intros (n & Hw). exists n. split; [|exact Hw].
      destruct Hw as (_ & _ & (st & Hst & _) & _).
      apply list_elem_of_In, list_elem_of_fmap. exists (n, st). split; [reflexivity|].
      apply elem_of_map_to_list. exact Hst.
Qed.

(** When a query raises, the result is false and the error is printed. *)
Lemma has_wired_raise w e :
  net_if_stats w = Raise e \/
  ((exists net_stats, net_if_stats w = Ok net_stats) /\ net_if_addrs w = Raise e) ->
  has_wired_ethernet_connection w =
  (false, [Print ("Error checking ethernet connection: " +:+ str_exn e)]).
Proof.
  unfold has_wired_ethernet_connection, wired_ethernet_query.
  intros [H|[[net_stats Hs] Ha]].
  - rewrite H. reflexivity.
  - rewrite Hs, Ha. reflexivity.
Qed.

End Wired.

(** C1: [has_wired_ethernet_connection] is true exactly when the enumeration
    holds an interface with no skip pattern in its lower-cased name, an
    ethernet pattern at the start of or inside that name, operational state
    up, and an IPv4 address that is not empty, not in 127.x, not in 169.254.x
    and not 0.0.0.0.  The skip patterns are tested first: an interface whose
    name holds one never counts, whatever its state and addresses, so taking
    it out of the enumeration does not change the result. *)
Theorem has_wired_ethernet_iff (w : World) :
  (ethernet_ok w = true <->
   exists net_stats net_addrs name,
     net_if_stats w = Ok net_stats /\ net_if_addrs w = Ok net_addrs /\
     wired_ethernet_interface net_stats net_addrs name) /\
  (forall net_stats name,
     net_if_stats w = Ok net_stats ->
     (exists p, In p SKIP_INTERFACES /\ Py.contains p (Py.lower name) = true) ->
     ethernet_ok (with_net_if_stats (Ok (delete name net_stats)) w) = ethernet_ok w).
Proof.
  unfold ethernet_ok. split.
  - destruct (net_if_stats w) as [net_stats|e] eqn:Hs.
    + destruct (net_if_addrs w) as [net_addrs|e] eqn:Ha.
      * destruct (has_wired_ok w net_stats net_addrs Hs Ha) as (b & -> & Hiff).
        simpl. rewrite Hiff. split.
        -- intros [name Hw]. exists net_stats, net_addrs, name. auto.
        -- intros (s' & a' & name & Hs' & Ha' & Hw).
           injection Hs' as <-. injection Ha' as <-. eauto.
      * rewrite (has_wired_raise w e) by eauto. simpl. split; [discriminate|].
        intros (? & ? & ? & _ & ? & _). discriminate.
    + rewrite (has_wired_raise w e) by auto. simpl. split; [discriminate|].
      intros (? & ? & ? & ? & _). discriminate.
  - intros net_stats name Hs Hskip.
    apply should_skip_true in Hskip.
    set (w' := with_net_if_stats (Ok (delete name net_stats)) w).
    destruct (net_if_addrs w) as [net_addrs|e] eqn:Ha.
    + destruct (has_wired_ok w net_stats net_addrs Hs Ha) as (b & -> & Hiff).
      destruct (has_wired_ok w' (delete name net_stats) net_addrs eq_refl Ha)
        as (b' & -> & Hiff').
      simpl. apply eq_true_iff_eq. rewrite Hiff, Hiff'.
      split; intros [n Hw]; exists n;
        apply wired_ethernet_interface_unfold in Hw;
        apply wired_ethernet_interface_unfold;
        destruct Hw as (Hns & He & st & Hst & Hrest);
        (assert (n <> name) by congruence);
        repeat split; auto; exists st; split; auto.
      * rewrite lookup_delete_ne in Hst by auto. exact Hst.
      * rewrite lookup_delete_ne by auto. exact Hst.
    + rewrite (has_wired_raise w e), (has_wired_raise w' e); [reflexivity| |].
      * right. split; [eexists; reflexivity|exact Ha].
      * right. split; [eauto|exact Ha].
Qed.

Lemma has_wired_ethernet_iff_witness :
  ethernet_ok office = true /\
  ethernet_ok (with_net_if_stats
     (Ok (delete "wlan0"
            (<["eth0" := {| isup := true |}]>
               (<["wlan0" := {| isup := true |}]> ∅)))) office) = ethernet_ok office.
Proof.
  split.
  - apply (proj1 (has_wired_ethernet_iff office)).
    eexists _, _, "eth0". split; [reflexivity|]. split; [reflexivity|].
    unfold wired_ethernet_interface. split; [|split; [|split]].
    + intros p Hp. simpl in Hp.
      destruct Hp as [<-|[<-|[<-|[<-|[<-|[<-|[]]]]]]]; reflexivity.
    + exists "eth". split; [simpl; auto|]. left. reflexivity.
    + eexists. split; reflexivity.
    + eexists _, {| family := 2; address := "192.168.1.5" |}.
      split; [reflexivity|]. split; [left; reflexivity|].
      repeat split; discriminate.
  - apply (proj2 (has_wired_ethernet_iff office) _ "wlan0" eq_refl).
    exists "wlan". split; [simpl; auto|reflexivity].
Defined.

(** The interface [wlan0], up and holding a routable address, does not count. *)
Example wlan0_excluded : ethernet_ok wifi_only = false.
Proof. reflexivity. Qed.

(** [en1] up with only 169.254.1.1 does not count. *)
Example en1_link_local_excluded :
  ethernet_ok
    {| clock := 0; now := now office; sensors_battery := Ok None;
       net_if_stats := Ok (<["en1" := {| isup := true |}]> ∅);
       net_if_addrs :=
         Ok (<["en1" := [{| family := 2; address := "169.254.1.1" |}]]> ∅) |}
  = false.
Proof. reflexivity. Qed.

(** C6: [has_wired_ethernet_connection] is false when the enumeration of the
    interfaces raises (either query), and false when no interface of the
    enumeration meets the wired-ethernet rule. *)
Theorem has_wired_ethernet_fail_closed (w : World) :
  (forall e, net_if_stats w = Raise e -> ethernet_ok w = false) /\
  (forall net_stats e,
     net_if_stats w = Ok net_stats -> net_if_addrs w = Raise e ->
     ethernet_ok w = false) /\
  (forall net_stats net_addrs,
     net_if_stats w = Ok net_stats -> net_if_addrs w = Ok net_addrs ->
     (forall name, ~ wired_ethernet_interface net_stats net_addrs name) ->
     ethernet_ok w = false).
Proof.
  unfold ethernet_ok. split; [|split].
  - intros e H. rewrite (has_wired_raise w e) by auto. reflexivity.
  - intros net_stats e Hs Ha. rewrite (has_wired_raise w e) by eauto. reflexivity.
  - intros net_stats net_addrs Hs Ha Hnone.
    destruct (has_wired_ok w net_stats net_addrs Hs Ha) as (b & -> & Hiff).
    simpl. destruct b; [|reflexivity].
    destruct (proj1 Hiff eq_refl) as [name Hw]. destruct (Hnone name Hw).
Qed.

Lemma has_wired_ethernet_fail_closed_witness :
  ethernet_ok net_down = false /\ ethernet_ok wifi_only = false.
Proof.
  split.
  - apply (proj1 (has_wired_ethernet_fail_closed net_down) (Exception "enumeration failed")).
    reflexivity.
  - apply (proj2 (proj2 (has_wired_ethernet_fail_closed wifi_only)) _ _ eq_refl eq_refl).
    intros name (Hskip & _ & (st & Hst & _) & _).
    destruct (decide (name = "wlan0")) as [->|Hne].
    + specialize (Hskip "wlan"). simpl in Hskip.
      assert (true = false) by (apply Hskip; auto). discriminate.
    + rewrite lookup_insert_ne, lookup_empty in Hst by congruence. discriminate.
Defined.

(** ** Traces *)

Lemma key_presses_app o1 o2 :
  key_presses (o1 ++ o2) = (key_presses o1 + key_presses o2)%nat.
Proof. unfold key_presses. rewrite List.filter_app, length_app. reflexivity. Qed.

Lemma printed_app o1 o2 : printed (o1 ++ o2) = printed o1 ++ printed o2.
Proof. unfold printed. apply omap_app. Qed.

Lemma keep_alive_lines_app o1 o2 :
  keep_alive_lines (o1 ++ o2) = keep_alive_lines o1 ++ keep_alive_lines o2.
Proof. unfold keep_alive_lines. rewrite printed_app. apply List.filter_app. Qed.

Lemma out_bind_fst {A B} (m : Out A) (k : A -> Out B) :
  fst (out_bind m k) = fst (k (fst m)).
Proof. unfold out_bind. destruct m as [a o1]. simpl. destruct (k a). reflexivity. Qed.

Lemma out_bind_snd {A B} (m : Out A) (k : A -> Out B) :
  snd (out_bind m k) = snd m ++ snd (k (fst m)).
Proof. unfold out_bind. destruct m as [a o1]. simpl. destruct (k a). reflexivity. Qed.

Lemma quiet_nil : quiet [].
Proof. repeat split. intros line []. Qed.

Lemma quiet_app o1 o2 : quiet o1 -> quiet o2 -> quiet (o1 ++ o2).
Proof.
  intros (K1 & L1 & E1) (K2 & L2 & E2). repeat split.
  - rewrite key_presses_app, K1, K2. reflexivity.
  - rewrite keep_alive_lines_app, L1, L2. reflexivity.
  - intros line. rewrite printed_app, in_app_iff. intros [H|H]; auto.
Qed.

Lemma quiet_sleep secs : quiet [Sleep secs].
Proof. repeat split. intros line []. Qed.

Lemma has_wired_quiet w :
  quiet (snd (SystemConditions.has_wired_ethernet_connection w)).
Proof.
  unfold SystemConditions.has_wired_ethernet_connection.
  destruct (SystemConditions.wired_ethernet_query w) as [b|e]; simpl.
  - apply quiet_nil.
  - repeat split. intros line [<-|[]]. exists e. reflexivity.
Qed.

Create HintDb quiet.
#[local] Hint Resolve quiet_nil quiet_app quiet_sleep has_wired_quiet : quiet.

(** ** The three conditions together *)

Lemma all_conditions_met_spec w :
  fst (all_conditions_met w) = work_hours_ok w && power_ok w && ethernet_ok w /\
  quiet (snd (all_conditions_met w)).
Proof.
  unfold all_conditions_met, work_hours_ok, power_ok, ethernet_ok.
  destruct (SystemConditions.is_work_hours w); simpl; auto with quiet.
  destruct (SystemConditions.is_on_ac_power w); simpl; auto with quiet.
Qed.

Lemma get_failed_conditions_spec w :
  fst (get_failed_conditions w) =
    failed_names (work_hours_ok w) (power_ok w) (ethernet_ok w) /\
  quiet (snd (get_failed_conditions w)).
Proof.
  unfold get_failed_conditions, work_hours_ok, power_ok, ethernet_ok.
  rewrite out_bind_fst, out_bind_snd.
  split.
  - destruct (SystemConditions.is_work_hours w),
      (SystemConditions.is_on_ac_power w),
      (fst (SystemConditions.has_wired_ethernet_connection w)); reflexivity.
  - simpl. rewrite app_nil_r. auto with quiet.
Qed.

Lemma failed_names_nil work power ethernet :
  failed_names work power ethernet = [] <-> work && power && ethernet = true.
Proof. destruct work, power, ethernet; vm_compute; split; congruence. Qed.

Lemma get_icon_status_quiet w self : quiet (snd (_get_icon_status w self)).
Proof.
  unfold _get_icon_status. destruct (running self); simpl; auto with quiet.
  rewrite out_bind_snd. apply quiet_app; [apply all_conditions_met_spec|].
  destruct (fst (all_conditions_met w)); simpl; auto with quiet.
  rewrite out_bind_snd. simpl. rewrite app_nil_r. apply get_failed_conditions_spec.
Qed.

Lemma get_icon_status_value w self :
  fst (_get_icon_status w self) =
  if negb (running self) then ("stopped", "Stopped")
  else if work_hours_ok w && power_ok w && ethernet_ok w
       then ("active", "Running (Active)")
       else ("paused",
             "Paused (" +:+
             Py.join ", " (failed_names (work_hours_ok w) (power_ok w) (ethernet_ok w))
             +:+ ")").
Proof.
  unfold _get_icon_status. destruct (running self); simpl; [|reflexivity].
  rewrite out_bind_fst. rewrite (proj1 (all_conditions_met_spec w)).
  destruct (work_hours_ok w && power_ok w && ethernet_ok w); [reflexivity|].
  rewrite out_bind_fst. rewrite (proj1 (get_failed_conditions_spec w)). reflexivity.
Qed.

(** C9: with the three condition values of one reading, the list of
    [get_failed_conditions] holds the names of the false conditions, in the
    order work hours, power, ethernet; it is empty exactly when
    [all_conditions_met] is true, and, while running, exactly when the status
    is "active". *)
Theorem failed_conditions_agree (w : World) :
  fst (get_failed_conditions w) =
    failed_names (work_hours_ok w) (power_ok w) (ethernet_ok w) /\
  (fst (get_failed_conditions w) = [] <-> fst (all_conditions_met w) = true) /\
  (forall name, In name (fst (get_failed_conditions w)) <->
     (name = "Outside Work Hours" /\ work_hours_ok w = false) \/
     (name = "On Battery" /\ power_ok w = false) \/
     (name = "No Ethernet" /\ ethernet_ok w = false)) /\
  (forall self, running self = true ->
     (fst (fst (_get_icon_status w self)) = "active" <->
      fst (get_failed_conditions w) = [])).
Proof.
  rewrite (proj1 (get_failed_conditions_spec w)),
          (proj1 (all_conditions_met_spec w)).
  split; [reflexivity|]. split; [apply failed_names_nil|]. split.
  - intros name.
    destruct (work_hours_ok w), (power_ok w), (ethernet_ok w);
      unfold failed_names; simpl; intuition congruence.
  - intros self Hrun. rewrite get_icon_status_value, Hrun. simpl.
    rewrite failed_names_nil.
    destruct (work_hours_ok w && power_ok w && ethernet_ok w); simpl;
      split; congruence.
Qed.

Lemma failed_conditions_agree_witness :
  fst (get_failed_conditions office) = [] /\
  fst (fst (_get_icon_status office (set_running true init))) = "active" /\
  In "On Battery" (fst (get_failed_conditions unplugged_offline)).
Proof.
  split; [|split].
  - apply (proj1 (proj2 (failed_conditions_agree office))). reflexivity.
  - apply (proj2 (proj2 (proj2 (failed_conditions_agree office)))
             (set_running true init) eq_refl).
    reflexivity.
  - apply (proj1 (proj2 (proj2 (failed_conditions_agree unplugged_offline)))).
    right. left. split; reflexivity.
Defined.

(** ** The icon *)

Lemma update_icon_quiet w self : quiet (snd (update_icon w self)).
Proof.
  unfold update_icon. destruct (icon self); simpl; auto with quiet.
  rewrite out_bind_snd. apply quiet_app; [apply get_icon_status_quiet|].
  destruct (fst (_get_icon_status w self)). simpl. auto with quiet.
Qed.

Lemma update_icon_value w self :
  fst (update_icon w self) =
  match icon self with
  | None => self
  | Some _ =>
      set_icon (Some {| icon_image :=
                          create_icon_image (fst (fst (_get_icon_status w self)));
                        icon_title :=
                          APP_NAME +:+ " - " +:+ snd (fst (_get_icon_status w self)) |})
               self
  end.
Proof.
  unfold update_icon. destruct (icon self); [|reflexivity].
  rewrite out_bind_fst. destruct (fst (_get_icon_status w self)). reflexivity.
Qed.

Lemma update_icon_running w self :
  running (fst (update_icon w self)) = running self /\
  thread (fst (update_icon w self)) = thread self.
Proof. rewrite update_icon_value. destruct (icon self); split; reflexivity. Qed.

(** C7: the status shown is "stopped" when the loop is not running; when it
    runs, "active" if the three conditions hold and otherwise "paused", with
    a title that lists every failed condition, in the order work hours,
    power, ethernet.  The tooltip of the tray icon is that title after the
    application name. *)
Theorem icon_status_derivation (w : World) (self : KeepAliveApp) :
  (running self = false ->
   fst (_get_icon_status w self) = ("stopped", "Stopped")) /\
  (running self = true ->
   work_hours_ok w && power_ok w && ethernet_ok w = true ->
   fst (_get_icon_status w self) = ("active", "Running (Active)")) /\
  (running self = true ->
   work_hours_ok w && power_ok w && ethernet_ok w = false ->
   fst (_get_icon_status w self) =
     ("paused",
      "Paused (" +:+
      Py.join ", " (failed_names (work_hours_ok w) (power_ok w) (ethernet_ok w))
      +:+ ")") /\
   fst (get_failed_conditions w) =
     failed_names (work_hours_ok w) (power_ok w) (ethernet_ok w)) /\
  (forall tray, icon self = Some tray ->
   icon (fst (update_icon w self)) =
     Some {| icon_image := create_icon_image (fst (fst (_get_icon_status w self)));
             icon_title := "Keep Alive - " +:+ snd (fst (_get_icon_status w self)) |}).
Proof.
  rewrite get_icon_status_value. split; [|split; [|split]].
  - intros ->. reflexivity.
  - intros -> ->. reflexivity.
  - intros -> ->. split; [reflexivity|]. apply get_failed_conditions_spec.
  - intros tray Htray.
    rewrite update_icon_value, Htray, get_icon_status_value. reflexivity.
Qed.

Lemma icon_status_derivation_witness :
  fst (_get_icon_status office init) = ("stopped", "Stopped") /\
  fst (_get_icon_status office (set_running true init)) =
    ("active", "Running (Active)") /\
  fst (_get_icon_status unplugged_offline (set_running true init)) =
    ("paused", "Paused (On Battery, No Ethernet)").
Proof.
  split; [|split].
  - apply (proj1 (icon_status_derivation office init)). reflexivity.
  - apply (proj1 (proj2 (icon_status_derivation office (set_running true init))));
      reflexivity.
  - apply (proj1 (proj2 (proj2
      (icon_status_derivation unplugged_offline (set_running true init))))
      eq_refl eq_refl).
Defined.

(** The tooltip of a paused application lists both failed conditions. *)
Example paused_tooltip :
  icon (fst (update_icon unplugged_offline
               (set_icon (Some {| icon_image := (128, 128, 128, 255);
                                  icon_title := "Keep Alive - Stopped" |})
                         (set_running true init)))) =
  Some {| icon_image := (255, 140, 0, 255);
          icon_title := "Keep Alive - Paused (On Battery, No Ethernet)" |}.
Proof. reflexivity. Qed.

(** ** One pass of the loop *)

Lemma loop_body_trace w self :
  snd (loop_body w self) =
  snd (all_conditions_met w) ++
  snd (if fst (all_conditions_met w)
       then out_bind simulate_key_press (fun _ =>
              print ("Keep-alive: " +:+ Py.title KEEP_ALIVE_KEY +:+ " key pressed at "
                     +:+ strftime_HMS (now w)))
       else _log_skip_reason w) ++
  snd (update_icon w self) ++ [Sleep UPDATE_PERIOD].
Proof.
  unfold loop_body. rewrite !out_bind_snd.
  destruct (fst (all_conditions_met w)); reflexivity.
Qed.

Lemma loop_body_value w self :
  fst (loop_body w self) = fst (update_icon w self).
Proof.
  unfold loop_body. rewrite !out_bind_fst. reflexivity.
Qed.

Lemma skip_line_prefix w : Py.startswith (skip_line w) "Keep-alive:" = true.
Proof.
  unfold skip_line.
  destruct (work_hours_ok w), (power_ok w); reflexivity.
Qed.

Lemma press_line_prefix w : Py.startswith (press_line w) "Keep-alive:" = true.
Proof. reflexivity. Qed.

Lemma keep_alive_lines_print line :
  Py.startswith line "Keep-alive:" = true ->
  keep_alive_lines [Print line] = [line].
Proof.
  intros H.
  change (keep_alive_lines [Print line])
    with (if Py.startswith line "Keep-alive:" then [line] else []).
  rewrite H. reflexivity.
Qed.

Lemma press_trace w :
  snd (out_bind simulate_key_press (fun _ =>
         print ("Keep-alive: " +:+ Py.title KEEP_ALIVE_KEY +:+ " key pressed at "
                +:+ strftime_HMS (now w)))) =
  [KeyPress "scrolllock"] ++ [Print (press_line w)].
Proof. reflexivity. Qed.

(** When a condition is false, [_log_skip_reason] prints the skip line for
    the first false one, after at most an error line. *)
Lemma log_skip_reason_trace w :
  work_hours_ok w && power_ok w && ethernet_ok w = false ->
  exists q, quiet q /\ snd (_log_skip_reason w) = q ++ [Print (skip_line w)].
Proof.
  unfold _log_skip_reason, skip_line, work_hours_ok, power_ok, ethernet_ok.
  destruct (SystemConditions.is_work_hours w); simpl.
  2:{ intros _. exists []. split; [apply quiet_nil|reflexivity]. }
  destruct (SystemConditions.is_on_ac_power w); simpl.
  2:{ intros _. exists []. split; [apply quiet_nil|reflexivity]. }
  intros Heth. rewrite out_bind_snd, Heth. simpl.
  eexists. split; [apply has_wired_quiet|reflexivity].
Qed.

(** C2: on a pass of the loop taken while running, with the condition values
    of one reading: when the three conditions hold the key is pressed exactly
    once and the press line, with its timestamp, is the one log line; when a
    condition is false no key is pressed and the one log line names the
    first false condition, in the order work hours, power, ethernet. *)
Theorem loop_pass_press_or_skip (w : World) (self : KeepAliveApp) :
  running self = true ->
  let o := snd (keep_alive_loop_pass w self) in
  (work_hours_ok w && power_ok w && ethernet_ok w = true ->
   key_presses o = 1%nat /\ In (KeyPress "scrolllock") o /\
   keep_alive_lines o = [press_line w]) /\
  (work_hours_ok w && power_ok w && ethernet_ok w = false ->
   key_presses o = 0%nat /\ keep_alive_lines o = [skip_line w]).
Proof.
  intros Hrun o. subst o. unfold keep_alive_loop_pass. rewrite Hrun. simpl.
  rewrite out_bind_snd. simpl. rewrite app_nil_r, loop_body_trace.
  destruct (all_conditions_met_spec w) as [Hmet (K1 & L1 & _)].
  destruct (update_icon_quiet w self) as (K3 & L3 & _).
  rewrite Hmet.
  rewrite !key_presses_app, !keep_alive_lines_app, K1, L1, K3, L3.
  split; intros Hc; rewrite Hc.
  - rewrite press_trace, !key_presses_app, !keep_alive_lines_app.
    rewrite (keep_alive_lines_print _ (press_line_prefix w)).
    repeat split. apply in_or_app. right. left. reflexivity.
  - destruct (log_skip_reason_trace w Hc) as (q & (K2 & L2 & _) & ->).
    rewrite key_presses_app, keep_alive_lines_app, K2, L2.
    rewrite (keep_alive_lines_print _ (skip_line_prefix w)).
    split; reflexivity.
Qed.

Lemma loop_pass_press_or_skip_witness :
  key_presses (snd (keep_alive_loop_pass office (set_running true init))) = 1%nat /\
  keep_alive_lines (snd (keep_alive_loop_pass office (set_running true init))) =
    ["Keep-alive: Scrolllock key pressed at 09:05:00"] /\
  key_presses (snd (keep_alive_loop_pass unplugged_offline (set_running true init)))
    = 0%nat /\
  keep_alive_lines (snd (keep_alive_loop_pass unplugged_offline (set_running true init)))
    = ["Keep-alive: Running on battery power, skipping at 09:05:00"].
Proof.
  pose proof (loop_pass_press_or_skip office (set_running true init) eq_refl) as H1.
  pose proof (loop_pass_press_or_skip unplugged_offline (set_running true init) eq_refl)
    as H2.
  destruct (proj1 H1 eq_refl) as (K1 & _ & L1).
  destruct (proj2 H2 eq_refl) as (K2 & L2).
  repeat split; assumption.
Defined.

(** A pass at 09:05:00 when the enumeration fails: the error line is printed
    by each evaluation of the ethernet check, the one log line names the
    missing ethernet connection. *)
Example loop_pass_net_down :
  snd (keep_alive_loop_pass net_down (set_running true init)) =
  [Print "Error checking ethernet connection: enumeration failed";
   Print "Error checking ethernet connection: enumeration failed";
   Print "Keep-alive: No wired ethernet connection, skipping at 09:05:00";
   Sleep 30].
Proof. reflexivity. Qed.

(** ** The log *)

Lemma str_02d_two_digits n :
  0 <= n < 100 ->
  exists a b, Py.str_02d n = String a (String b EmptyString) /\
              is_digit a = true /\ is_digit b = true.
Proof.
  intros Hn.
  assert (Hall : forallb (fun k =>
            match Py.str_02d k with
            | String a (String b EmptyString) => is_digit a && is_digit b
            | _ => false
            end) (seqZ 0 100) = true) by (vm_compute; reflexivity).
  rewrite forallb_forall in Hall.
  specialize (Hall n). rewrite <- list_elem_of_In, elem_of_seqZ in Hall.
  specialize (Hall ltac:(lia)).
  destruct (Py.str_02d n) as [|a [|b [|? ?]]]; try discriminate.
  apply andb_true_iff in Hall. exists a, b. tauto.
Qed.

Lemma strftime_HMS_shape t : valid_datetime t -> is_HMS (strftime_HMS t) = true.
Proof.
  intros (Hh & Hm & Hs). unfold strftime_HMS.
  destruct (str_02d_two_digits (hour t)) as (h1 & h2 & -> & D1 & D2); [lia|].
  destruct (str_02d_two_digits (minute t)) as (m1 & m2 & -> & D3 & D4); [lia|].
  destruct (str_02d_two_digits (second t)) as (s1 & s2 & -> & D5 & D6); [lia|].
  change (is_digit h1 && is_digit h2 && true && is_digit m1 && is_digit m2 && true
          && is_digit s1 && is_digit s2 = true).
  rewrite D1, D2, D3, D4, D5, D6. reflexivity.
Qed.

Lemma press_line_format w : valid_datetime (now w) -> log_format (press_line w).
Proof.
  intros Hv. exists " Scrolllock key pressed at ", (strftime_HMS (now w)).
  split; [reflexivity|]. apply strftime_HMS_shape, Hv.
Qed.

Lemma skip_line_format w : valid_datetime (now w) -> log_format (skip_line w).
Proof.
  intros Hv. unfold skip_line.
  destruct (work_hours_ok w); simpl; [destruct (power_ok w); simpl|].
  - exists " No wired ethernet connection, skipping at ", (strftime_HMS (now w)).
    split; [reflexivity|]. apply strftime_HMS_shape, Hv.
  - exists " Running on battery power, skipping at ", (strftime_HMS (now w)).
    split; [reflexivity|]. apply strftime_HMS_shape, Hv.
  - exists " Outside work hours (8:00-17:00), skipping at ", (strftime_HMS (now w)).
    split; [reflexivity|]. apply strftime_HMS_shape, Hv.
Qed.

Lemma notice_not_log_format rest : ~ log_format ("Keep-alive " +:+ rest).
Proof. intros (body & ts & H & _). discriminate H. Qed.

(** [_log_skip_reason] prints error lines and at most the skip line. *)
Lemma log_skip_reason_lines w line :
  In line (printed (snd (_log_skip_reason w))) ->
  error_line line \/ line = skip_line w.
Proof.
  destruct (work_hours_ok w && power_ok w && ethernet_ok w) eqn:Hc.
  - unfold _log_skip_reason.
    apply andb_true_iff in Hc. destruct Hc as [Hc He].
    apply andb_true_iff in Hc. destruct Hc as [Hw Hp].
    unfold work_hours_ok, power_ok, ethernet_ok in *. rewrite Hw, Hp. simpl.
    rewrite out_bind_snd, He. simpl. rewrite app_nil_r.
    intros H. left. apply (has_wired_quiet w). exact H.
  - destruct (log_skip_reason_trace w Hc) as (q & (_ & _ & Hq) & ->).
    rewrite printed_app, in_app_iff. intros [H|[<-|[]]]; auto.
Qed.

(** The lines of one pass of the loop: error lines, and the press line or
    the skip line. *)
Lemma loop_pass_lines w self line :
  In line (printed (snd (keep_alive_loop_pass w self))) ->
  error_line line \/ line = press_line w \/ line = skip_line w.
Proof.
  unfold keep_alive_loop_pass.
  destruct (running self); simpl; [|intros []].
  rewrite out_bind_snd. simpl. rewrite app_nil_r, loop_body_trace.
  rewrite !printed_app, !in_app_iff. intros [H|[H|[H|H]]].
  - left. apply (all_conditions_met_spec w). exact H.
  - destruct (fst (all_conditions_met w)).
    + rewrite press_trace in H. destruct H as [<-|[]]. auto.
    + destruct (log_skip_reason_lines w line H); auto.
  - left. apply (update_icon_quiet w self). exact H.
  - destruct H.
Qed.

(** ** Start and stop *)

Lemma start_when_running w p :
  running (self p) = true -> start_keep_alive w p = (p, []).
Proof. intros H. unfold start_keep_alive. rewrite H. reflexivity. Qed.

Lemma stop_when_stopped w p :
  running (self p) = false -> stop_keep_alive w p = (p, []).
Proof. intros H. unfold stop_keep_alive. rewrite H. reflexivity. Qed.

Lemma start_when_stopped w p :
  running (self p) = false ->
  let self2 := set_thread (Some (length (threads p))) (set_running true (self p)) in
  start_keep_alive w p =
  ({| self := fst (update_icon w self2);
      threads := threads p ++ [Parked (clock w)];
      ui_free_at := clock w |},
   Print "Keep-alive started" :: snd (update_icon w self2)).
Proof.
  intros H self2. unfold start_keep_alive. rewrite H. simpl. fold self2.
  destruct (update_icon w self2) as [s o]. simpl. rewrite app_nil_r. reflexivity.
Qed.

Lemma update_icon_stopped w self :
  running self = false -> snd (update_icon w self) = [].
Proof.
  intros H. unfold update_icon. destruct (icon self); [|reflexivity].
  unfold _get_icon_status. rewrite H. reflexivity.
Qed.

Lemma stop_when_running w p :
  running (self p) = true ->
  let self1 := set_running false (self p) in
  let joined :=
    match thread (self p) with
    | Some i => join_timeout_1 (clock w) i (threads p)
    | None => (threads p, clock w)
    end in
  stop_keep_alive w p =
  ({| self := fst (update_icon w self1);
      threads := fst joined;
      ui_free_at := snd joined |},
   [Print "Keep-alive stopped"]).
Proof.
  intros H self1 joined. unfold stop_keep_alive. rewrite H.
  change (thread (set_running false (self p))) with (thread (self p)).
  fold joined. destruct joined as [ths free]. simpl. fold self1.
  pose proof (update_icon_stopped w self1 eq_refl) as Hq.
  destruct (update_icon w self1) as [s o]. simpl in *. subst o. reflexivity.
Qed.

(** C8, as the program has it: each line a pass of the loop prints for a key
    press or a skipped tick starts with "Keep-alive:" and ends with the local
    time as HH:MM:SS; the only other lines of a pass are the error lines of a
    failed enumeration.  The notices of start and stop ("Keep-alive started",
    "Keep-alive stopped"), the lines printed by [run] and the error lines
    ("Error checking ethernet connection: ...") are not in that format. *)
Theorem loop_lines_log_format (w : World) :
  valid_datetime (now w) ->
  (forall self line,
     In line (printed (snd (keep_alive_loop_pass w self))) ->
     error_line line \/
     ((line = press_line w \/ line = skip_line w) /\ log_format line)) /\
  (forall p, running (self p) = false ->
     exists rest, printed (snd (start_keep_alive w p)) = "Keep-alive started" :: rest /\
                  Forall error_line rest) /\
  (forall p, running (self p) = true ->
     printed (snd (stop_keep_alive w p)) = ["Keep-alive stopped"]) /\
  ~ log_format "Keep-alive started" /\ ~ log_format "Keep-alive stopped" /\
  (forall p line, In line (printed (snd (run p))) -> ~ log_format line) /\
  (forall line, error_line line -> ~ log_format line).
Proof.
  intros Hv. split; [|split; [|split; [|split; [|split; [|split]]]]].
  - intros self line H. destruct (loop_pass_lines w self line H) as [He|[->| ->]].
    + left. exact He.
    + right. split; [auto|]. apply press_line_format, Hv.
    + right. split; [auto|]. apply skip_line_format, Hv.
  - intros p Hstop. rewrite (start_when_stopped w p Hstop). simpl.
    eexists. split; [reflexivity|].
    apply Forall_forall. intros line Hl. apply list_elem_of_In in Hl.
    eapply (proj2 (proj2 (update_icon_quiet w _))). exact Hl.
  - intros p Hrun. rewrite (stop_when_running w p Hrun). reflexivity.
  - apply (notice_not_log_format "started").
  - apply (notice_not_log_format "stopped").
  - intros p line H (body & ts & E & _). simpl in H.
    destruct H as [<-|[<-|[<-|[<-|[<-|[]]]]]]; discriminate E.
  - intros line [e ->] (body & ts & E & _). discriminate E.
Qed.

Lemma loop_lines_log_format_witness :
  log_format "Keep-alive: Scrolllock key pressed at 09:05:00" /\
  printed (snd (stop_keep_alive office
                  {| self := set_running true init; threads := [Parked 30];
                     ui_free_at := 0 |})) = ["Keep-alive stopped"].
Proof.
  assert (Hv : valid_datetime (now office)) by (unfold valid_datetime; simpl; lia).
  split.
  - assert (Hin : In "Keep-alive: Scrolllock key pressed at 09:05:00"
                    (printed (snd (keep_alive_loop_pass office (set_running true init)))))
      by (vm_compute; left; reflexivity).
    destruct (proj1 (loop_lines_log_format office Hv) _ _ Hin) as [[e He]|[_ Hf]].
    + discriminate He.
    + exact Hf.
  - apply (proj1 (proj2 (proj2 (loop_lines_log_format office Hv)))). reflexivity.
Defined.

(** The claim of C8 fails on the notice of start: the line "Keep-alive
    started" is printed, and it has no "Keep-alive:" prefix. *)
Lemma start_notice_breaks_log_format :
  ~ all_log_format (snd (start_keep_alive office boot)).
Proof.
  intros H. apply (notice_not_log_format "started").
  apply H. simpl. auto.
Qed.

(** C10: with no tray icon, [update_icon] returns at once: the object is
    unchanged and nothing is written.  Start and stop called then still set
    the running flag, start launching the loop, and leave the icon unset. *)
Theorem update_icon_without_tray (w : World) (p : Process) :
  icon (self p) = None ->
  update_icon w (self p) = (self p, []) /\
  (running (self p) = false ->
   start_keep_alive w p =
   ({| self := set_thread (Some (length (threads p))) (set_running true (self p));
       threads := threads p ++ [Parked (clock w)];
       ui_free_at := clock w |},
    [Print "Keep-alive started"])) /\
  running (self (fst (start_keep_alive w p))) = true /\
  running (self (fst (stop_keep_alive w p))) = false /\
  icon (self (fst (start_keep_alive w p))) = None /\
  icon (self (fst (stop_keep_alive w p))) = None.
Proof.
  intros Hicon.
  assert (Hup : forall s, icon s = None -> update_icon w s = (s, [])).
  { intros s Hs. unfold update_icon. rewrite Hs. reflexivity. }
  split; [apply Hup, Hicon|]. split.
  { intros Hstop. rewrite (start_when_stopped w p Hstop). simpl.
    rewrite Hup by exact Hicon. reflexivity. }
  destruct (running (self p)) eqn:Hrun.
  - rewrite (start_when_running w p Hrun), (stop_when_running w p Hrun). simpl.
    rewrite Hup by exact Hicon. auto.
  - rewrite (start_when_stopped w p Hrun), (stop_when_stopped w p Hrun). simpl.
    rewrite Hup by exact Hicon. auto.
Qed.

Lemma update_icon_without_tray_witness :
  update_icon office init = (init, []) /\
  running (self (fst (start_keep_alive office boot))) = true /\
  running (self (fst (stop_keep_alive office (fst (start_keep_alive office boot))))) = false.
Proof.
  split; [|split].
  - apply (proj1 (update_icon_without_tray office boot eq_refl)).
  - apply (proj1 (proj2 (proj2 (update_icon_without_tray office boot eq_refl)))).
  - apply (proj1 (proj2 (proj2 (proj2
      (update_icon_without_tray office (fst (start_keep_alive office boot)) eq_refl))))).
Defined.

(** ** The start/stop state machine and the loop threads *)

(** A pass taken while running, with no tray icon: the thread goes back to
    sleep for one period and the object is unchanged. *)
Lemma thread_pass_running w i p :
  running (self p) = true -> icon (self p) = None ->
  thread_pass w i p =
  ({| self := self p;
      threads := <[i := Parked (clock w + UPDATE_PERIOD)]> (threads p);
      ui_free_at := ui_free_at p |},
   snd (loop_body w (self p))).
Proof.
  intros Hrun Hicon. unfold thread_pass, keep_alive_loop_pass. rewrite Hrun. simpl.
  pose proof (loop_body_value w (self p)) as Hv.
  rewrite update_icon_value, Hicon in Hv.
  destruct (loop_body w (self p)) as [s o]. simpl in *. subst s.
  rewrite !app_nil_r. reflexivity.
Qed.

(** A pass taken after stop: the thread returns. *)
Lemma thread_pass_stopped w i p :
  running (self p) = false ->
  thread_pass w i p =
  ({| self := self p; threads := <[i := Exited]> (threads p);
      ui_free_at := ui_free_at p |}, []).
Proof.
  intros Hrun. unfold thread_pass, keep_alive_loop_pass. rewrite Hrun. reflexivity.
Qed.

(** Start launches exactly one loop, and only when none was asked for. *)
Lemma start_live_loops w p :
  live_loops (fst (start_keep_alive w p)) =
  if running (self p) then live_loops p else S (live_loops p).
Proof.
  destruct (running (self p)) eqn:Hrun.
  - rewrite (start_when_running w p Hrun). reflexivity.
  - rewrite (start_when_stopped w p Hrun). unfold live_loops. simpl.
    rewrite List.filter_app, length_app. simpl. lia.
Qed.

(** Two calls of start in a row on a new application: one loop, running. *)
Lemma start_twice_one_loop w1 w2 :
  let p := fst (start_keep_alive w2 (fst (start_keep_alive w1 boot))) in
  running (self p) = true /\ live_loops p = 1%nat /\
  p = fst (start_keep_alive w1 boot).
Proof. repeat split. Qed.

(** A stop that finds its loop asleep for a second or more leaves it
    asleep: the flag is cleared, the loop is still there. *)
Lemma stop_leaves_sleeping_loop w p i u :
  running (self p) = true -> thread (self p) = Some i ->
  threads p !! i = Some (Parked u) -> clock w + 1 <= u ->
  running (self (fst (stop_keep_alive w p))) = false /\
  threads (fst (stop_keep_alive w p)) = threads p.
Proof.
  intros Hrun Hth Hi Hu. rewrite (stop_when_running w p Hrun). simpl.
  rewrite Hth. unfold join_timeout_1. rewrite Hi.
  destruct (u <? clock w + 1) eqn:E; [apply Z.ltb_lt in E; lia|].
  split; [|reflexivity].
  apply update_icon_running.
Qed.

Lemma play_cons a rest p p1 o1 p2 o2 :
  exec a p = Some (p1, o1) -> play rest p1 = Some (p2, o2) ->
  play (a :: rest) p = Some (p2, o1 ++ o2).
Proof. intros H1 H2. simpl. rewrite H1, H2. reflexivity. Qed.

Lemma exec_start_stopped w p :
  (ui_free_at p <=? clock w) && none_due_before (clock w) (threads p) = true ->
  running (self p) = false -> icon (self p) = None ->
  exec (CallStart w) p =
  Some ({| self := set_thread (Some (length (threads p))) (set_running true (self p));
           threads := threads p ++ [Parked (clock w)];
           ui_free_at := clock w |},
        [Print "Keep-alive started"]).
Proof.
  intros Hg Hrun Hicon. unfold exec. rewrite Hg.
  rewrite (start_when_stopped w p Hrun). simpl.
  unfold update_icon. simpl. rewrite Hicon. reflexivity.
Qed.

Lemma exec_stop_running w p :
  (ui_free_at p <=? clock w) && none_due_before (clock w) (threads p) = true ->
  running (self p) = true -> icon (self p) = None ->
  let joined :=
    match thread (self p) with
    | Some i => join_timeout_1 (clock w) i (threads p)
    | None => (threads p, clock w)
    end in
  exec (CallStop w) p =
  Some ({| self := set_running false (self p);
           threads := fst joined; ui_free_at := snd joined |},
        [Print "Keep-alive stopped"]).
Proof.
  intros Hg Hrun Hicon joined. unfold exec. rewrite Hg.
  rewrite (stop_when_running w p Hrun). fold joined.
  unfold update_icon. simpl. rewrite Hicon. reflexivity.
Qed.

Lemma exec_pass_running w i p u :
  threads p !! i = Some (Parked u) ->
  (clock w =? u) && none_due_before u (threads p) = true ->
  running (self p) = true -> icon (self p) = None ->
  exec (LoopPass i w) p =
  Some ({| self := self p;
           threads := <[i := Parked (clock w + UPDATE_PERIOD)]> (threads p);
           ui_free_at := ui_free_at p |},
        snd (loop_body w (self p))).
Proof.
  intros Hi Hg Hrun Hicon. unfold exec. rewrite Hi, Hg.
  rewrite (thread_pass_running w i p Hrun Hicon). reflexivity.
Qed.

(** C3, on a restart within one period: start at 0 s, first pass of the loop
    at 0 s (asleep until 30 s), stop at 5 s (the join gives up at 6 s), start
    at 10 s, first pass of the second loop at 10 s, and at 30 s the first
    loop wakes, reads the flag set again, and goes on.  The application is
    running with two live loops, whatever the platform reads. *)
Theorem restart_within_period_two_loops (w : World) :
  exists p o,
    play [CallStart (with_clock 0 w); LoopPass 0 (with_clock 0 w);
          CallStop (with_clock 5 w); CallStart (with_clock 10 w);
          LoopPass 1 (with_clock 10 w); LoopPass 0 (with_clock 30 w)] boot
    = Some (p, o) /\
    running (self p) = true /\
    threads p = [Parked 60; Parked 40] /\
    live_loops p = 2%nat.
Proof.
  eexists. eexists. split.
  - eapply play_cons.
    { apply exec_start_stopped; reflexivity. }
    eapply play_cons.
    { eapply exec_pass_running; reflexivity. }
    eapply play_cons.
    { apply exec_stop_running; reflexivity. }
    eapply play_cons.
    { apply exec_start_stopped; reflexivity. }
    eapply play_cons.
    { eapply exec_pass_running; reflexivity. }
    eapply play_cons.
    { eapply exec_pass_running; reflexivity. }
    reflexivity.
  - repeat split.
Qed.

(** The same restart on the desktop at its desk: within the first 30 seconds
    the key has been pressed by both loops. *)
Example restart_office_trace :
  play [CallStart (with_clock 0 office); LoopPass 0 (with_clock 0 office);
        CallStop (with_clock 5 office); CallStart (with_clock 10 office);
        LoopPass 1 (with_clock 10 office); LoopPass 0 (with_clock 30 office)] boot
  = Some ({| self := {| running := true; thread := Some 1%nat; icon := None |};
             threads := [Parked 60; Parked 40];
             ui_free_at := 10 |},
          [Print "Keep-alive started";
           KeyPress "scrolllock";
           Print "Keep-alive: Scrolllock key pressed at 09:05:00"; Sleep 30;
           Print "Keep-alive stopped";
           Print "Keep-alive started";
           KeyPress "scrolllock";
           Print "Keep-alive: Scrolllock key pressed at 09:05:00"; Sleep 30;
           KeyPress "scrolllock";
           Print "Keep-alive: Scrolllock key pressed at 09:05:00"; Sleep 30]).
Proof. reflexivity. Qed.

(** * Further properties of the code *)

(** ** Interface names and the connection check *)

Lemma string_app_assoc (a b c : string) : (a +:+ b) +:+ c = a +:+ b +:+ c.
Proof.
  induction a as [|x a IH]; [reflexivity|].
  change (String x ((a +:+ b) +:+ c) = String x (a +:+ b +:+ c)).
  rewrite IH. reflexivity.
Qed.

Lemma contains_shorter p q s :
  Py.contains (p +:+ q) s = true -> Py.contains p s = true.
Proof.
  rewrite !contains_spec. intros (a & b & ->).
  exists a, (q +:+ b). rewrite string_app_assoc. reflexivity.
Qed.

(** X1: an interface counts as ethernet exactly when its lower-cased name
    holds "eth" or "en" somewhere: the test of the start of the name and the
    pattern "ethernet" add nothing. *)
Theorem is_ethernet_interface_contains (name : string) :
  SystemConditions._is_ethernet_interface name =
  Py.contains "eth" (Py.lower name) || Py.contains "en" (Py.lower name).
Proof.
  unfold SystemConditions._is_ethernet_interface, Py.any, ETHERNET_PATTERNS.
  set (s := Py.lower name). cbn [existsb].
  pose proof (startswith_contains s "ethernet") as H1.
  pose proof (startswith_contains s "eth") as H2.
  pose proof (startswith_contains s "en") as H3.
  pose proof (contains_shorter "eth" "ernet" s) as H4.
  change ("eth" +:+ "ernet") with "ethernet" in H4.
  destruct (Py.startswith s "ethernet"), (Py.contains "ethernet" s),
    (Py.startswith s "eth"), (Py.contains "eth" s),
    (Py.startswith s "en"), (Py.contains "en" s); simpl;
    try reflexivity;
    try (specialize (H1 eq_refl); discriminate);
    try (specialize (H2 eq_refl); discriminate);
    try (specialize (H3 eq_refl); discriminate);
    try (specialize (H4 eq_refl); discriminate).
Qed.

(** X3: [has_wired_ethernet_connection] writes nothing when both queries
    answer, and when one raises it answers false and writes one line with
    the message of that exception: the lookup of an interface in [net_stats]
    never fails. *)
Theorem has_wired_output (w : World) :
  match net_if_stats w, net_if_addrs w with
  | Ok _, Ok _ => snd (SystemConditions.has_wired_ethernet_connection w) = []
  | Ok _, Raise e | Raise e, _ =>
      SystemConditions.has_wired_ethernet_connection w =
      (false, [Print ("Error checking ethernet connection: " +:+ str_exn e)])
  end.
Proof.
  destruct (net_if_stats w) as [net_stats|e] eqn:Hs.
  - destruct (net_if_addrs w) as [net_addrs|e] eqn:Ha.
    + destruct (has_wired_ok w net_stats net_addrs Hs Ha) as (b & -> & _).
      reflexivity.
    + apply has_wired_raise. eauto.
  - apply has_wired_raise. auto.
Qed.

Lemma has_wired_true_silent w :
  ethernet_ok w = true -> snd (SystemConditions.has_wired_ethernet_connection w) = [].
Proof.
  unfold ethernet_ok. intros H.
  destruct (net_if_stats w) as [net_stats|e] eqn:Hs.
  - destruct (net_if_addrs w) as [net_addrs|e] eqn:Ha.
    + destruct (has_wired_ok w net_stats net_addrs Hs Ha) as (b & -> & _).
      reflexivity.
    + rewrite (has_wired_raise w e) in H by eauto. discriminate.
  - rewrite (has_wired_raise w e) in H by auto. discriminate.
Qed.

(** ** What one pass of the loop does *)

Lemma log_skip_reason_exact w :
  snd (_log_skip_reason w) =
  if work_hours_ok w && power_ok w then
    snd (SystemConditions.has_wired_ethernet_connection w) ++
    (if ethernet_ok w then [] else [Print (skip_line w)])
  else [Print (skip_line w)].
Proof.
  unfold _log_skip_reason, skip_line, work_hours_ok, power_ok, ethernet_ok.
  destruct (SystemConditions.is_work_hours w); simpl; [|reflexivity].
  destruct (SystemConditions.is_on_ac_power w); simpl; [|reflexivity].
  rewrite out_bind_snd.
  destruct (fst (SystemConditions.has_wired_ethernet_connection w)); reflexivity.
Qed.

Lemma all_conditions_met_trace w :
  snd (all_conditions_met w) =
  if work_hours_ok w && power_ok w
  then snd (SystemConditions.has_wired_ethernet_connection w) else [].
Proof.
  unfold all_conditions_met, work_hours_ok, power_ok.
  destruct (SystemConditions.is_work_hours w); [|reflexivity].
  destruct (SystemConditions.is_on_ac_power w); reflexivity.
Qed.

(** X5: the whole trace of a pass taken while running with no tray icon.
    Outside work hours or on battery: the skip line, then the sleep, and the
    ethernet check is not run.  All conditions true: the key press, the press
    line, the sleep.  Only the ethernet missing: the check is run twice (its
    error line, if any, is written each time), then the skip line and the
    sleep. *)
Theorem loop_pass_trace_no_tray (w : World) (self : KeepAliveApp) :
  running self = true -> icon self = None ->
  snd (keep_alive_loop_pass w self) =
  if work_hours_ok w && power_ok w then
    if ethernet_ok w then
      [KeyPress "scrolllock"; Print (press_line w); Sleep 30]
    else
      snd (SystemConditions.has_wired_ethernet_connection w) ++
      snd (SystemConditions.has_wired_ethernet_connection w) ++
      [Print (skip_line w); Sleep 30]
  else [Print (skip_line w); Sleep 30].
Proof.
  intros Hrun Hicon. unfold keep_alive_loop_pass. rewrite Hrun.
  cbn [negb]. rewrite out_bind_snd. cbn [out_ret snd]. rewrite app_nil_r.
  rewrite loop_body_trace.
  assert (Hup : snd (update_icon w self) = [])
    by (unfold update_icon; rewrite Hicon; reflexivity).
  rewrite Hup, all_conditions_met_trace, (proj1 (all_conditions_met_spec w)).
  destruct (work_hours_ok w && power_ok w) eqn:Hwp; cbn [andb].
  - destruct (ethernet_ok w) eqn:He.
    + rewrite (has_wired_true_silent w He). reflexivity.
    + rewrite log_skip_reason_exact, Hwp, He, <- !app_assoc. reflexivity.
  - rewrite log_skip_reason_exact, Hwp. reflexivity.
Qed.

Lemma loop_pass_trace_no_tray_witness :
  snd (keep_alive_loop_pass office (set_running true init)) =
    [KeyPress "scrolllock";
     Print "Keep-alive: Scrolllock key pressed at 09:05:00"; Sleep 30] /\
  snd (keep_alive_loop_pass (with_hour 20 net_down) (set_running true init)) =
    [Print "Keep-alive: Outside work hours (8:00-17:00), skipping at 20:05:00";
     Sleep 30].
Proof.
  split.
  - apply (loop_pass_trace_no_tray office (set_running true init)); reflexivity.
  - apply (loop_pass_trace_no_tray (with_hour 20 net_down) (set_running true init));
      reflexivity.
Defined.

(** X6: a pass of the loop never changes the running flag or the recorded
    thread, and goes on exactly when the flag is set.  With the flag set its
    last event is the sleep of one period; with the flag cleared it returns
    at once: nothing is pressed, written or slept. *)
Theorem loop_pass_keeps_flag (w : World) (self : KeepAliveApp) :
  let r := keep_alive_loop_pass w self in
  running (fst (fst r)) = running self /\
  thread (fst (fst r)) = thread self /\
  snd (fst r) = running self /\
  (running self = true ->
   exists o, snd r = o ++ [Sleep UPDATE_PERIOD] /\ (key_presses o <= 1)%nat) /\
  (running self = false -> r = ((self, false), [])).
Proof.
  unfold keep_alive_loop_pass.
  destruct (running self) eqn:Hrun; cbn [negb].
  - rewrite out_bind_fst, out_bind_snd, loop_body_value. cbn [out_ret fst snd].
    destruct (update_icon_running w self) as [Hr Ht].
    rewrite Hr, Ht. split; [exact Hrun|]. split; [reflexivity|].
    split; [reflexivity|]. split; [|discriminate].
    intros _. rewrite app_nil_r, loop_body_trace.
    eexists. split.
    + rewrite !app_assoc. reflexivity.
    + destruct (all_conditions_met_spec w) as [_ (K1 & _)].
      destruct (update_icon_quiet w self) as (K3 & _).
      rewrite !key_presses_app, K1, K3.
      destruct (fst (all_conditions_met w)).
      * rewrite press_trace. cbn. lia.
      * pose proof (log_skip_reason_exact w) as Hl.
        assert (K2 : key_presses (snd (_log_skip_reason w)) = 0%nat).
        { rewrite Hl. destruct (work_hours_ok w && power_ok w); [|reflexivity].
          rewrite key_presses_app.
          destruct (has_wired_quiet w) as (K & _). rewrite K.
          destruct (ethernet_ok w); reflexivity. }
        rewrite K2. lia.
  - repeat split; try discriminate. exact Hrun.
Qed.

Lemma loop_pass_keeps_flag_witness :
  keep_alive_loop_pass office init = ((init, false), []) /\
  exists o, snd (keep_alive_loop_pass office (set_running true init))
            = o ++ [Sleep UPDATE_PERIOD] /\ (key_presses o <= 1)%nat.
Proof.
  split.
  - apply (proj2 (proj2 (proj2 (proj2 (loop_pass_keeps_flag office init))))).
    reflexivity.
  - apply (proj1 (proj2 (proj2 (proj2
      (loop_pass_keeps_flag office (set_running true init)))))).
    reflexivity.
Defined.

(** ** The status texts of the menu *)

(** X7: the work-hours text is "In work hours (08:00 - 17:00)" from 8 to 16,
    announces the start at 8:00 before 8 and the restart tomorrow from 17 on;
    it says "In work hours" exactly when [is_work_hours] is true. *)
Theorem work_hours_status_cases (w : World) :
  (8 <= hour (now w) < 17 ->
   StatusProvider.get_work_hours_status w = "In work hours (08:00 - 17:00)") /\
  (hour (now w) < 8 ->
   StatusProvider.get_work_hours_status w =
   "Outside work hours. Work hours start at 8:00") /\
  (17 <= hour (now w) ->
   StatusProvider.get_work_hours_status w =
   "Outside work hours. Work hours resume tomorrow at 8:00") /\
  Py.startswith (StatusProvider.get_work_hours_status w) "In work hours" =
  SystemConditions.is_work_hours w.
Proof.
  unfold StatusProvider.get_work_hours_status, SystemConditions.is_work_hours,
    WORK_HOURS_START, WORK_HOURS_END.
  destruct (Z.leb_spec 8 (hour (now w))) as [H8|H8];
    destruct (Z.ltb_spec (hour (now w)) 17) as [H17|H17];
    destruct (Z.ltb_spec (hour (now w)) 8) as [H8'|H8']; cbn [andb];
    repeat split; intros; try lia; reflexivity.
Qed.

Lemma work_hours_status_cases_witness :
  StatusProvider.get_work_hours_status office = "In work hours (08:00 - 17:00)" /\
  StatusProvider.get_work_hours_status (with_hour 7 office) =
    "Outside work hours. Work hours start at 8:00" /\
  StatusProvider.get_work_hours_status (with_hour 17 office) =
    "Outside work hours. Work hours resume tomorrow at 8:00".
Proof.
  split; [|split].
  - apply (proj1 (work_hours_status_cases office)). simpl. lia.
  - apply (proj1 (proj2 (work_hours_status_cases (with_hour 7 office)))). simpl. lia.
  - apply (proj1 (proj2 (proj2 (work_hours_status_cases (with_hour 17 office))))).
    simpl. lia.
Defined.

(** ** The icon and the menu *)

Lemma update_icon_keeps_tray w self :
  match icon self with
  | Some _ => exists tray, icon (fst (update_icon w self)) = Some tray
  | None => icon (fst (update_icon w self)) = None
  end.
Proof.
  rewrite update_icon_value. destruct (icon self) eqn:E; [eexists; reflexivity|exact E].
Qed.

(** X10: a status that is not a key of [COLORS] is drawn with the grey of
    "stopped"; the program itself only draws the three keys: with a tray
    icon, a refresh makes the disc grey when the loop is stopped, green when
    it runs and all three conditions hold, orange when it runs and a
    condition fails. *)
Theorem icon_colour_by_state (w : World) (self : KeepAliveApp) :
  (forall status, COLORS !! status = None ->
     create_icon_image status = (128, 128, 128, 255)) /\
  (forall tray, icon self = Some tray ->
     icon_image <$> icon (fst (update_icon w self)) =
     Some (if negb (running self) then (128, 128, 128, 255)
           else if work_hours_ok w && power_ok w && ethernet_ok w
                then (34, 139, 34, 255) else (255, 140, 0, 255))).
Proof.
  split.
  - intros status H. unfold create_icon_image. unfold RGBA in *.
    rewrite H. reflexivity.
  - intros tray Htray. rewrite update_icon_value, Htray, get_icon_status_value.
    destruct (running self); [|reflexivity].
    destruct (work_hours_ok w && power_ok w && ethernet_ok w); reflexivity.
Qed.

Lemma icon_colour_by_state_witness :
  create_icon_image "unknown" = (128, 128, 128, 255) /\
  icon_image <$> icon (fst (update_icon office
     (set_icon (Some {| icon_image := (0, 0, 0, 0); icon_title := "none" |})
               (set_running true init)))) = Some (34, 139, 34, 255).
Proof.
  split.
  - apply (proj1 (icon_colour_by_state office init)). reflexivity.
  - apply (proj2 (icon_colour_by_state office
      (set_icon (Some {| icon_image := (0, 0, 0, 0); icon_title := "none" |})
                (set_running true init)))
      {| icon_image := (0, 0, 0, 0); icon_title := "none" |}).
    reflexivity.
Defined.

(** X11: [run] installs a grey icon titled "Keep Alive - Stopped", leaves the
    running flag and the loop threads as they are, and presses no key; for an
    application that is not running this is the icon a refresh would give,
    so refreshing right after changes nothing. *)
Theorem run_installs_stopped_icon (p : Process) :
  icon (self (fst (run p))) =
    Some {| icon_image := (128, 128, 128, 255);
            icon_title := "Keep Alive - Stopped" |} /\
  running (self (fst (run p))) = running (self p) /\
  threads (fst (run p)) = threads p /\
  key_presses (snd (run p)) = 0%nat /\
  length (printed (snd (run p))) = 5%nat /\
  (running (self p) = false ->
   forall w, update_icon w (self (fst (run p))) = (self (fst (run p)), [])).
Proof.
  repeat split. intros Hrun w.
  unfold update_icon, _get_icon_status. cbn [run out_bind print emit out_ret fst snd
    self set_icon icon running]. rewrite Hrun. reflexivity.
Qed.

Lemma run_installs_stopped_icon_witness :
  update_icon office (self (fst (run boot))) = (self (fst (run boot)), []).
Proof.
  apply (proj2 (proj2 (proj2 (proj2 (proj2 (run_installs_stopped_icon boot)))))).
  reflexivity.
Defined.

Lemma start_sets_running w p : running (self (fst (start_keep_alive w p))) = true.
Proof.
  destruct (running (self p)) eqn:Hrun.
  - rewrite (start_when_running w p Hrun). exact Hrun.
  - rewrite (start_when_stopped w p Hrun). simpl.
    rewrite (proj1 (update_icon_running w _)). reflexivity.
Qed.

Lemma stop_clears_running w p : running (self (fst (stop_keep_alive w p))) = false.
Proof.
  destruct (running (self p)) eqn:Hrun.
  - rewrite (stop_when_running w p Hrun). simpl.
    rewrite (proj1 (update_icon_running w _)). reflexivity.
  - rewrite (stop_when_stopped w p Hrun). exact Hrun.
Qed.



(** ** Quitting, and calls that follow one another *)

(** X13: [quit_app] always leaves the running flag cleared and never presses
    a key; it writes "Keep-alive stopped" exactly when the loop was running,
    and stops the tray exactly when there is one.  A loop thread that wakes
    after it returns at once, without pressing or writing anything. *)
Theorem quit_app_stops (w : World) (p : Process) :
  let r := quit_app w p in
  running (self (fst (fst r))) = false /\
  snd (fst r) = match icon (self p) with Some _ => true | None => false end /\
  snd r = (if running (self p) then [Print "Keep-alive stopped"] else []) /\
  (forall w' i,
     snd (thread_pass w' i (fst (fst r))) = [] /\
     threads (fst (thread_pass w' i (fst (fst r)))) =
       <[i := Exited]> (threads (fst (fst r))) /\
     running (self (fst (thread_pass w' i (fst (fst r))))) = false).
Proof.
  unfold quit_app. rewrite out_bind_fst, out_bind_snd. cbn [out_ret fst snd].
  rewrite app_nil_r.
  pose proof (stop_clears_running w p) as Hstop.
  split; [exact Hstop|]. split; [|split].
  - destruct (running (self p)) eqn:Hrun.
    + rewrite (stop_when_running w p Hrun). cbn [fst self].
      pose proof (update_icon_keeps_tray w (set_running false (self p))) as Hk.
      change (icon (set_running false (self p))) with (icon (self p)) in Hk.
      destruct (icon (self p)); [destruct Hk as [tray ->]|rewrite Hk]; reflexivity.
    + rewrite (stop_when_stopped w p Hrun). reflexivity.
  - destruct (running (self p)) eqn:Hrun.
    + rewrite (stop_when_running w p Hrun). reflexivity.
    + rewrite (stop_when_stopped w p Hrun). reflexivity.
  - intros w' i. rewrite (thread_pass_stopped w' i _ Hstop).
    repeat split. exact Hstop.
Qed.

(** X14: calls that follow one another.  A second start right after a start
    changes nothing and writes nothing, whatever the state before; so does a
    second stop after a stop; a stop after a start clears the flag and writes
    only its notice. *)
Theorem start_stop_compose (w1 w2 : World) (p : Process) :
  start_keep_alive w2 (fst (start_keep_alive w1 p)) =
    (fst (start_keep_alive w1 p), []) /\
  stop_keep_alive w2 (fst (stop_keep_alive w1 p)) =
    (fst (stop_keep_alive w1 p), []) /\
  running (self (fst (stop_keep_alive w2 (fst (start_keep_alive w1 p))))) = false /\
  snd (stop_keep_alive w2 (fst (start_keep_alive w1 p))) = [Print "Keep-alive stopped"] /\
  live_loops (fst (start_keep_alive w2 (fst (start_keep_alive w1 p)))) =
    (if running (self p) then live_loops p else S (live_loops p)).
Proof.
  pose proof (start_sets_running w1 p) as H1.
  pose proof (stop_clears_running w1 p) as H2.
  split; [apply start_when_running, H1|].
  split; [apply stop_when_stopped, H2|].
  split; [apply stop_clears_running|].
  split.
  - rewrite (stop_when_running w2 _ H1). reflexivity.
  - rewrite (start_when_running w2 _ H1). apply start_live_loops.
Qed.

Lemma count_parked_insert (ths : list ThreadState) i u st :
  ths !! i = Some (Parked u) ->
  length (List.filter is_parked (<[i := st]> ths)) =
  if is_parked st then length (List.filter is_parked ths)
  else Nat.pred (length (List.filter is_parked ths)).
Proof.
  revert i. induction ths as [|t ths IH]; intros [|i] Hi; try discriminate.
  - injection Hi as ->. simpl. destruct st; reflexivity.
  - simpl in Hi. specialize (IH i Hi).
    change (<[S i := st]> (t :: ths)) with (t :: <[i := st]> ths).
    simpl. destruct (is_parked t); simpl; rewrite IH; destruct (is_parked st);
      try reflexivity.
    assert (0 < length (List.filter is_parked ths))%nat; [|lia].
    clear IH. revert i Hi. induction ths as [|t' ths IH']; intros [|i] Hi;
      try discriminate.
    + injection Hi as ->. simpl. lia.
    + simpl in Hi. specialize (IH' i Hi). simpl. destruct (is_parked t'); simpl; lia.
Qed.

(** ** Properties of whole runs *)

Lemma loop_pass_value w self :
  fst (keep_alive_loop_pass w self) =
  (if running self then fst (update_icon w self) else self, running self).
Proof.
  unfold keep_alive_loop_pass. destruct (running self); [|reflexivity].
  cbn [negb]. rewrite out_bind_fst, loop_body_value. reflexivity.
Qed.

Lemma loop_pass_key_presses w self :
  key_presses (snd (keep_alive_loop_pass w self)) =
  if running self && (work_hours_ok w && power_ok w && ethernet_ok w)
  then 1%nat else 0%nat.
Proof.
  unfold keep_alive_loop_pass. destruct (running self); [|reflexivity].
  cbn [negb andb]. rewrite out_bind_snd. cbn [out_ret snd].
  rewrite app_nil_r, loop_body_trace.
  destruct (all_conditions_met_spec w) as [Hmet (K1 & _)].
  destruct (update_icon_quiet w self) as (K3 & _).
  rewrite !key_presses_app, K1, K3, Hmet.
  destruct (work_hours_ok w && power_ok w && ethernet_ok w) eqn:Hc.
  - rewrite press_trace. reflexivity.
  - destruct (log_skip_reason_trace w Hc) as (q & (K2 & _) & ->).
    rewrite key_presses_app, K2. reflexivity.
Qed.

Lemma thread_pass_value w i p :
  thread_pass w i p =
  ({| self := if running (self p) then fst (update_icon w (self p)) else self p;
      threads := <[i := if running (self p)
                        then Parked (clock w + UPDATE_PERIOD) else Exited]> (threads p);
      ui_free_at := ui_free_at p |},
   snd (keep_alive_loop_pass w (self p))).
Proof.
  unfold thread_pass. pose proof (loop_pass_value w (self p)) as Hv.
  destruct (keep_alive_loop_pass w (self p)) as [[s b] o]. cbn [fst snd] in *.
  injection Hv as -> ->. unfold out_bind, out_ret. rewrite app_nil_r. reflexivity.
Qed.

Lemma start_key_presses w p : key_presses (snd (start_keep_alive w p)) = 0%nat.
Proof.
  destruct (running (self p)) eqn:Hrun.
  - rewrite (start_when_running w p Hrun). reflexivity.
  - rewrite (start_when_stopped w p Hrun). cbn [snd].
    change (Print "Keep-alive started" :: ?o) with ([Print "Keep-alive started"] ++ o).
    rewrite key_presses_app. apply (update_icon_quiet w _).
Qed.

Lemma stop_key_presses w p : key_presses (snd (stop_keep_alive w p)) = 0%nat.
Proof.
  destruct (running (self p)) eqn:Hrun.
  - rewrite (stop_when_running w p Hrun). reflexivity.
  - rewrite (stop_when_stopped w p Hrun). reflexivity.
Qed.

Lemma exec_key_presses a p p' o :
  exec a p = Some (p', o) ->
  (key_presses o <= if pass_meets a then 1 else 0)%nat.
Proof.
  destruct a as [w|w|i w]; cbn [exec pass_meets].
  - destruct (_ && _); [|discriminate]. intros H. injection H as H.
    pose proof (start_key_presses w p) as K. rewrite H in K. cbn [snd] in K. lia.
  - destruct (_ && _); [|discriminate]. intros H. injection H as H.
    pose proof (stop_key_presses w p) as K. rewrite H in K. cbn [snd] in K. lia.
  - destruct (threads p !! i) as [[u|]|]; try discriminate.
    destruct (_ && _); [|discriminate]. intros H. injection H as H.
    rewrite thread_pass_value in H. injection H as _ <-.
    rewrite loop_pass_key_presses.
    destruct (running (self p)); cbn [andb];
      destruct (work_hours_ok w && power_ok w && ethernet_ok w); lia.
Qed.

(** X16: in any run, the key is pressed at most once for each pass of a loop
    taken on a reading where the three conditions hold; starting, stopping
    and passes on other readings never press it.  In particular a run whose
    passes all fall on readings with a false condition presses no key. *)
Theorem play_key_presses_bound (sched : list Action) (p p' : Process)
    (o : list Event) :
  play sched p = Some (p', o) ->
  (key_presses o <= length (List.filter pass_meets sched))%nat.
Proof.
  revert p p' o. induction sched as [|a rest IH]; intros p p' o H.
  - injection H as _ <-. cbn. lia.
  - cbn [play] in H.
    destruct (exec a p) as [[p1 o1]|] eqn:He; [|discriminate].
    destruct (play rest p1) as [[p2 o2]|] eqn:Hr; [|discriminate].
    injection H as _ <-.
    rewrite key_presses_app.
    pose proof (exec_key_presses a p p1 o1 He) as K1.
    pose proof (IH p1 p2 o2 Hr) as K2.
    cbn [List.filter]. destruct (pass_meets a); cbn [length]; lia.
Qed.

Lemma play_key_presses_bound_witness :
  (key_presses
     [Print "Keep-alive started";
      Print "Keep-alive: Outside work hours (8:00-17:00), skipping at 20:05:00";
      Sleep 30] <= 0)%nat.
Proof.
  exact (play_key_presses_bound
           [CallStart (with_hour 20 office); LoopPass 0 (with_hour 20 office)]
           boot
           {| self := {| running := true; thread := Some 0%nat; icon := None |};
              threads := [Parked 30]; ui_free_at := 0 |}
           [Print "Keep-alive started";
            Print "Keep-alive: Outside work hours (8:00-17:00), skipping at 20:05:00";
            Sleep 30]
           eq_refl).
Defined.

Lemma parked_counts (ths : list ThreadState) i u :
  ths !! i = Some (Parked u) -> (0 < length (List.filter is_parked ths))%nat.
Proof.
  revert i. induction ths as [|t ths IH]; intros [|i] Hi; try discriminate.
  - injection Hi as ->. cbn. lia.
  - cbn in Hi. specialize (IH i Hi). cbn. destruct (is_parked t); cbn; lia.
Qed.

Lemma exec_loop_alive a p p' o :
  exec a p = Some (p', o) -> loop_alive p -> loop_alive p'.
Proof.
  intros He Hinv. destruct a as [w|w|i w]; cbn [exec] in He.
  - destruct (_ && _); [|discriminate]. injection He as He.
    destruct (running (self p)) eqn:Hrun.
    + rewrite (start_when_running w p Hrun) in He. injection He as <- _. exact Hinv.
    + rewrite (start_when_stopped w p Hrun) in He. injection He as <- _.
      intros _. exists (length (threads p)), (clock w). cbn [self threads]. split.
      * rewrite (proj2 (update_icon_running w _)). reflexivity.
      * apply list_lookup_middle. reflexivity.
  - destruct (_ && _); [|discriminate]. injection He as He.
    pose proof (stop_clears_running w p) as Hs. rewrite He in Hs. cbn [fst] in Hs.
    intros Hr. congruence.
  - destruct (threads p !! i) as [[u|]|] eqn:Hi; try discriminate.
    destruct (_ && _); [|discriminate]. injection He as He.
    rewrite thread_pass_value in He. injection He as <- _.
    unfold loop_alive. cbn [self threads].
    destruct (running (self p)) eqn:Hrun; [|intros Hr; congruence].
    intros _. destruct (Hinv Hrun) as (j & v & Hj & Hv).
    rewrite (proj2 (update_icon_running w _)).
    exists j. destruct (decide (i = j)) as [->|Hne].
    + eexists. split; [exact Hj|]. apply list_lookup_insert_eq.
      apply lookup_lt_Some in Hv. exact Hv.
    + exists v. split; [exact Hj|]. rewrite list_lookup_insert_ne by exact Hne.
      exact Hv.
Qed.

(** X17: in any run of a new application, while the running flag is set the
    thread recorded by the last start is a loop that has not returned. *)
Theorem play_loop_alive (sched : list Action) (p p' : Process) (o : list Event) :
  loop_alive p -> play sched p = Some (p', o) -> loop_alive p'.
Proof.
  revert p p' o. induction sched as [|a rest IH]; intros p p' o Hinv H.
  - injection H as <- _. exact Hinv.
  - cbn [play] in H.
    destruct (exec a p) as [[p1 o1]|] eqn:He; [|discriminate].
    destruct (play rest p1) as [[p2 o2]|] eqn:Hr; [|discriminate].
    injection H as <- _.
    apply (IH p1 p2 o2); [|exact Hr].
    apply (exec_loop_alive a p p1 o1 He Hinv).
Qed.

Lemma play_loop_alive_witness :
  loop_alive {| self := {| running := true; thread := Some 1%nat; icon := None |};
                threads := [Parked 60; Parked 40]; ui_free_at := 10 |}.
Proof.
  apply (play_loop_alive
           [CallStart (with_clock 0 office); LoopPass 0 (with_clock 0 office);
            CallStop (with_clock 5 office); CallStart (with_clock 10 office);
            LoopPass 1 (with_clock 10 office); LoopPass 0 (with_clock 30 office)]
           boot _
           [Print "Keep-alive started";
            KeyPress "scrolllock";
            Print "Keep-alive: Scrolllock key pressed at 09:05:00"; Sleep 30;
            Print "Keep-alive stopped";
            Print "Keep-alive started";
            KeyPress "scrolllock";
            Print "Keep-alive: Scrolllock key pressed at 09:05:00"; Sleep 30;
            KeyPress "scrolllock";
            Print "Keep-alive: Scrolllock key pressed at 09:05:00"; Sleep 30]).
  - intros H. discriminate H.
  - reflexivity.
Defined.

Lemma exec_one_loop a p p' o :
  is_call_stop a = false -> exec a p = Some (p', o) ->
  one_loop_when_running p -> one_loop_when_running p'.
Proof.
  unfold one_loop_when_running.
  intros Hns He Hinv. destruct a as [w|w|i w]; [|discriminate Hns|]; cbn [exec] in He.
  - destruct (_ && _); [|discriminate]. injection He as He.
    pose proof (start_live_loops w p) as Hl.
    pose proof (start_sets_running w p) as Hr.
    rewrite He in Hl, Hr. cbn [fst] in Hl, Hr. rewrite Hl, Hr.
    destruct (running (self p)); lia.
  - destruct (threads p !! i) as [[u|]|] eqn:Hi; try discriminate.
    destruct (_ && _); [|discriminate]. injection He as He.
    rewrite thread_pass_value in He. injection He as <- _.
    pose proof (parked_counts _ _ _ Hi) as Hpos. fold (live_loops p) in Hpos.
    destruct (running (self p)) eqn:Hrun; [|lia].
    unfold live_loops in *. cbn [threads self].
    rewrite (count_parked_insert _ _ _ _ Hi). cbn [is_parked].
    rewrite (proj1 (update_icon_running w _)), Hrun. exact Hinv.
Qed.

(** X18: as long as stop is not called, a new application never has two
    loops: in any run made of starts and loop passes there is exactly one
    live loop once the flag is set, and none before. *)
Theorem play_without_stop_one_loop (sched : list Action) (p p' : Process)
    (o : list Event) :
  one_loop_when_running p ->
  forallb (fun a => negb (is_call_stop a)) sched = true ->
  play sched p = Some (p', o) ->
  one_loop_when_running p' /\ (live_loops p' <= 1)%nat.
Proof.
  intros Hinv Hns H.
  assert (Hone : one_loop_when_running p').
  { revert p p' o Hinv H. induction sched as [|a rest IH]; intros p p' o Hinv H.
    - injection H as <- _. exact Hinv.
    - cbn [forallb] in Hns. apply andb_true_iff in Hns. destruct Hns as [Ha Hrest].
      apply negb_true_iff in Ha. cbn [play] in H.
      destruct (exec a p) as [[p1 o1]|] eqn:He; [|discriminate].
      destruct (play rest p1) as [[p2 o2]|] eqn:Hr; [|discriminate].
      injection H as <- _.
      apply (IH Hrest p1 p2 o2); [|exact Hr].
      apply (exec_one_loop a p p1 o1 Ha He Hinv). }
  split; [exact Hone|]. unfold one_loop_when_running in Hone. rewrite Hone.
  destruct (running (self p')); lia.
Qed.

Lemma play_without_stop_one_loop_witness :
  (live_loops {| self := {| running := true; thread := Some 0%nat; icon := None |};
                 threads := [Parked 60]; ui_free_at := 0 |} <= 1)%nat.
Proof.
  apply (play_without_stop_one_loop
           [CallStart (with_clock 0 office); LoopPass 0 (with_clock 0 office);
            CallStart (with_clock 10 office); LoopPass 0 (with_clock 30 office)]
           boot _
           [Print "Keep-alive started"; KeyPress "scrolllock";
            Print "Keep-alive: Scrolllock key pressed at 09:05:00"; Sleep 30;
            KeyPress "scrolllock";
            Print "Keep-alive: Scrolllock key pressed at 09:05:00"; Sleep 30]);
    reflexivity.
Defined.

(** ** More on the conditions *)

(** X19: an interface is skipped exactly when its lower-cased name holds
    "lo", "wifi", "wlan", "wireless" or "bluetooth": the pattern "local area
    connection" adds nothing, since it holds "lo". *)
Theorem should_skip_interface_contains (name : string) :
  SystemConditions._should_skip_interface name =
  Py.contains "lo" (Py.lower name) || Py.contains "wifi" (Py.lower name) ||
  Py.contains "wlan" (Py.lower name) || Py.contains "wireless" (Py.lower name) ||
  Py.contains "bluetooth" (Py.lower name).
Proof.
  unfold SystemConditions._should_skip_interface, Py.any, SKIP_INTERFACES.
  set (s := Py.lower name). cbn [existsb].
  pose proof (contains_shorter "lo" "cal area connection" s) as H.
  change ("lo" +:+ "cal area connection") with "local area connection" in H.
  destruct (Py.contains "lo" s); [reflexivity|].
  destruct (Py.contains "local area connection" s);
    [specialize (H eq_refl); discriminate|].
  destruct (Py.contains "wifi" s), (Py.contains "wlan" s),
    (Py.contains "wireless" s), (Py.contains "bluetooth" s); reflexivity.
Qed.

(** X20: interfaces and addresses that are added never take the wired
    verdict away: when both enumerations answer and are included in those of
    a second reading, a true answer on the first is a true answer on the
    second. *)
Theorem has_wired_monotone (w w' : World)
    (s s' : gmap string snicstats) (a a' : gmap string (list snicaddr)) :
  net_if_stats w = Ok s -> net_if_addrs w = Ok a ->
  net_if_stats w' = Ok s' -> net_if_addrs w' = Ok a' ->
  s ⊆ s' -> a ⊆ a' ->
  ethernet_ok w = true -> ethernet_ok w' = true.
Proof.
  intros Hs Ha Hs' Ha' Hsub Hasub. unfold ethernet_ok.
  destruct (has_wired_ok w s a Hs Ha) as (b & -> & Hiff).
  destruct (has_wired_ok w' s' a' Hs' Ha') as (b' & -> & Hiff').
  cbn [fst]. rewrite Hiff, Hiff'.
  intros (name & Hskip & Heth & (st & Hst & Hup) & addrs & x & Hal & Hrest).
  exists name. split; [exact Hskip|]. split; [exact Heth|]. split.
  - exists st. split; [|exact Hup]. eapply lookup_weaken; eassumption.
  - exists addrs, x. split; [|exact Hrest]. eapply lookup_weaken; eassumption.
Qed.

Lemma has_wired_monotone_witness :
  ethernet_ok office = true.
Proof.
  apply (has_wired_monotone
           (with_net_if_stats (Ok (<["eth0" := {| isup := true |}]> ∅)) office)
           office
           (<["eth0" := {| isup := true |}]> ∅)
           (<["eth0" := {| isup := true |}]> (<["wlan0" := {| isup := true |}]> ∅))
           (<["eth0" := [{| family := 2; address := "192.168.1.5" |}]]>
              (<["wlan0" := [{| family := 2; address := "10.0.0.7" |}]]> ∅))
           (<["eth0" := [{| family := 2; address := "192.168.1.5" |}]]>
              (<["wlan0" := [{| family := 2; address := "10.0.0.7" |}]]> ∅))
           eq_refl eq_refl eq_refl eq_refl).
  - apply insert_mono, map_empty_subseteq.
  - reflexivity.
  - reflexivity.
Defined.

(** X21: the addresses are looked up only for the interfaces of
    [net_if_stats]: two readings with the same interfaces whose address
    tables agree on those interfaces give the same answer, whatever else the
    address tables hold. *)
Theorem has_wired_only_listed_interfaces (w w' : World)
    (s : gmap string snicstats) (a a' : gmap string (list snicaddr)) :
  net_if_stats w = Ok s -> net_if_addrs w = Ok a ->
  net_if_stats w' = Ok s -> net_if_addrs w' = Ok a' ->
  (forall name, is_Some (s !! name) -> a !! name = a' !! name) ->
  SystemConditions.has_wired_ethernet_connection w =
  SystemConditions.has_wired_ethernet_connection w'.
Proof.
  intros Hs Ha Hs' Ha' Hagree.
  destruct (has_wired_ok w s a Hs Ha) as (b & -> & Hiff).
  destruct (has_wired_ok w' s a' Hs' Ha') as (b' & -> & Hiff').
  f_equal. apply eq_true_iff_eq. rewrite Hiff, Hiff'.
  split; intros (name & Hskip & Heth & (st & Hst & Hup) & addrs & x & Hal & Hrest);
    exists name; (split; [exact Hskip|]); (split; [exact Heth|]);
    (split; [exists st; auto|]); exists addrs, x; (split; [|exact Hrest]).
  - rewrite <- (Hagree name) by eauto. exact Hal.
  - rewrite (Hagree name) by eauto. exact Hal.
Qed.

Lemma has_wired_only_listed_interfaces_witness :
  SystemConditions.has_wired_ethernet_connection wifi_only =
  SystemConditions.has_wired_ethernet_connection
    {| clock := 0; now := now office; sensors_battery := Ok None;
       net_if_stats := Ok (<["wlan0" := {| isup := true |}]> ∅);
       net_if_addrs :=
         Ok (<["wlan0" := [{| family := 2; address := "10.0.0.7" |}]]> ∅) |}.
Proof.
  apply (has_wired_only_listed_interfaces wifi_only
           {| clock := 0; now := now office; sensors_battery := Ok None;
              net_if_stats := Ok (<["wlan0" := {| isup := true |}]> ∅);
              net_if_addrs :=
                Ok (<["wlan0" := [{| family := 2; address := "10.0.0.7" |}]]> ∅) |}
           (<["wlan0" := {| isup := true |}]> ∅)
           (<["eth0" := [{| family := 2; address := "192.168.1.5" |}]]>
              (<["wlan0" := [{| family := 2; address := "10.0.0.7" |}]]> ∅))
           (<["wlan0" := [{| family := 2; address := "10.0.0.7" |}]]> ∅)
           eq_refl eq_refl eq_refl eq_refl).
  intros name [st Hst].
  destruct (decide (name = "wlan0")) as [->|Hne]; [reflexivity|].
  rewrite lookup_insert_ne, lookup_empty in Hst by congruence. discriminate.
Defined.

(** X22: the reason written to the log is the first reason of the tooltip:
    when a condition is false, [get_failed_conditions] is not empty and the
    one log line of [_log_skip_reason] is the skip line of its first name. *)
Theorem log_reason_is_first_failed (w : World) :
  work_hours_ok w && power_ok w && ethernet_ok w = false ->
  exists name rest,
    fst (get_failed_conditions w) = name :: rest /\
    keep_alive_lines (snd (_log_skip_reason w)) = [reason_line name w] /\
    key_presses (snd (_log_skip_reason w)) = 0%nat.
Proof.
  intros Hc.
  destruct (log_skip_reason_trace w Hc) as (q & (K & L & _) & ->).
  rewrite keep_alive_lines_app, key_presses_app, K, L.
  rewrite (keep_alive_lines_print _ (skip_line_prefix w)).
  rewrite (proj1 (get_failed_conditions_spec w)).
  unfold skip_line, failed_names.
  destruct (work_hours_ok w); [destruct (power_ok w);
    [destruct (ethernet_ok w); [discriminate Hc|]|]|];
    cbn [List.filter fst snd negb map andb]; eexists; eexists;
    (split; [reflexivity|]); split; reflexivity.
Qed.

Lemma log_reason_is_first_failed_witness :
  exists name rest,
    fst (get_failed_conditions unplugged_offline) = name :: rest /\
    keep_alive_lines (snd (_log_skip_reason unplugged_offline))
      = [reason_line name unplugged_offline] /\
    key_presses (snd (_log_skip_reason unplugged_offline)) = 0%nat.
Proof. apply (log_reason_is_first_failed unplugged_offline). reflexivity. Defined.
